(** * Qolmat: imputation wrappers, benchmark metrics and data preparation

    A shallow embedding of the parts of the Qolmat repository that the
    specification makes claims about:

    - [qolmat/utils/utils.py] (data preparation: [linear_interpolation],
      [impute_nans]); the module itself is not part of the source tree at
      hand, its behaviour is recorded by [tests/utils/test_utils.py];
    - [qolmat/benchmark/utils.py] ([frechet_distance], [get_dimension] and
      [get_search_space]);
    - [qolmat/benchmark/hyperparameters.py] ([get_hyperparams],
      [get_objective]);
    - [qolmat/imputations/models.py] ([Imputer.fit_transform],
      [Imputer.impute_element], [ImputerShuffle], [ImputerLOCF],
      [ImputerNOCB]);
    - [robust_pca/imputations/models.py] ([ImputeColumnWise.fit_transform],
      [RandomImpute]);
    - [robust_pca/classes/evaluate_imputer.py] ([EvaluateImputor.__init__],
      [EvaluateImputor.scores_imputor]).

    Numbers: numpy's floats are idealised as rationals [Q]; a missing entry
    (not-a-number) is [None]. *)

From Stdlib Require Import QArith Qround Qabs Sorted Ascii String.
From stdpp Require Import gmap strings list.

Local Open Scope nat_scope.

(** ** Matrices with missing entries *)

(** One entry of an observation matrix: [None] is numpy's [nan]. *)
Abbreviation cell := (option Q).

(** A 2-D array, row-major: the list of its rows. *)
Abbreviation matrix := (list (list cell)).

Definition isnan (c : cell) : bool :=
  match c with None => true | Some _ => false end.

(** [M[i, j]]; [None] also stands for a position outside of the matrix. *)
Definition entry (M : matrix) (i j : nat) : cell :=
  match M !! i with
  | Some r => default None (r !! j)
  | None => None
  end.

(** [M[:, j]]. *)
Definition column (j : nat) (M : matrix) : list cell :=
  map (fun r => default None (r !! j)) M.

Definition n_cols (M : matrix) : nat :=
  match M with [] => 0 | r :: _ => length r end.

(** [M.T] for a rectangular matrix. *)
Definition transpose (M : matrix) : matrix :=
  map (fun j => column j M) (seq 0 (n_cols M)).

(** Equality of entries and matrices up to the value of the rationals
    ([numpy.testing.assert_allclose] on exact numbers). *)
Definition cell_eqb (a b : cell) : bool :=
  match a, b with
  | Some x, Some y => Qeq_bool x y
  | None, None => true
  | _, _ => false
  end.

Fixpoint row_eqb (r s : list cell) : bool :=
  match r, s with
  | [], [] => true
  | a :: r', b :: s' => cell_eqb a b && row_eqb r' s'
  | _, _ => false
  end.

Fixpoint mat_eqb (M N : matrix) : bool :=
  match M, N with
  | [], [] => true
  | r :: M', s :: N' => row_eqb r s && mat_eqb M' N'
  | _, _ => false
  end.

(** ** Data preparation ([qolmat/utils/utils.py]) *)

Module Utils.

(** *** [linear_interpolation] *)

(** The nearest observed entry strictly before position [j] of a line. *)
Fixpoint prev_obs (r : list cell) (j : nat) : option (nat * Q) :=
  match j with
  | O => None
  | S i =>
      match r !! i with
      | Some (Some v) => Some (i, v)
      | _ => prev_obs r i
      end
  end.

Fixpoint next_obs_from (r : list cell) (i fuel : nat) : option (nat * Q) :=
  match fuel with
  | O => None
  | S f =>
      match r !! i with
      | Some (Some v) => Some (i, v)
      | _ => next_obs_from r (S i) f
      end
  end.

(** The nearest observed entry strictly after position [j] of a line. *)
Definition next_obs (r : list cell) (j : nat) : option (nat * Q) :=
  next_obs_from r (S j) (length r - S j).

(** The value on the segment from [(i0, v0)] to [(i1, v1)] at abscissa [j]. *)
Definition segment (i0 : nat) (v0 : Q) (i1 : nat) (v1 : Q) (j : nat) : Q :=
  (v0 + (v1 - v0) * inject_Z (Z.of_nat j - Z.of_nat i0)
                  / inject_Z (Z.of_nat i1 - Z.of_nat i0))%Q.

(** The interpolated value at position [j] of the line [r]: an observed
    entry is kept; a missing entry between two observed ones lies on the
    segment that joins them; a missing entry before the first (after the
    last) observed one takes the nearest observed value. The specification
    does not say what becomes of a line with no observed entry at all: it
    is left missing here. *)
Definition interp_at (r : list cell) (j : nat) : cell :=
  match r !! j with
  | Some (Some v) => Some v
  | _ =>
      match prev_obs r j, next_obs r j with
      | Some (i0, v0), Some (i1, v1) => Some (segment i0 v0 i1 v1 j)
      | Some (_, v0), None => Some v0
      | None, Some (_, v1) => Some v1
      | None, None => None
      end
  end.

Definition interp_line (r : list cell) : list cell :=
  map (interp_at r) (seq 0 (length r)).

(** Modelled from the spec: [qolmat/utils/utils.py] is missing from the
    source tree. Section 4.3 gives linear interpolation across the missing
    entries with the edges filled by the nearest available value. The axis
    is the one that [test_utils_linear_interpolation] records: every line
    [X[i]] of the 2-D array is interpolated on its own. *)
Definition linear_interpolation (X : matrix) : matrix :=
  map interp_line X.

(** The reading of section 4.3 word for word ("per-column"): the same
    interpolation, applied to each column [X[:, j]]. *)
Definition linear_interpolation_per_column (X : matrix) : matrix :=
  transpose (map interp_line (transpose X)).

(** *** [impute_nans] *)

Inductive method : Type := Mean | Median | Zeros.

(** The observed values of a line, in order ([values[~isna]]). *)
Definition observed (l : list cell) : list Q := omap id l.

Definition Qsum (l : list Q) : Q := foldr Qplus 0%Q l.

(** The mean of a non-empty list of values. *)
Definition mean (vs : list Q) : Q :=
  (Qsum vs / inject_Z (Z.of_nat (length vs)))%Q.

(** [np.nanmean]: the mean of the observed values, not-a-number when
    there is none. *)
Definition nanmean (l : list cell) : cell :=
  match observed l with
  | [] => None
  | vs => Some (mean vs)
  end.

Fixpoint insert_sorted (x : Q) (l : list Q) : list Q :=
  match l with
  | [] => [x]
  | y :: l' => if Qle_bool x y then x :: l else y :: insert_sorted x l'
  end.

Definition sort (l : list Q) : list Q := foldr insert_sorted [] l.

(** The median of a non-empty list of values: the middle of the sorted
    values, the mean of the two middle ones when their number is even. *)
Definition median (vs : list Q) : Q :=
  let s := sort vs in
  let n := length s in
  if Nat.even n
  then ((nth (n / 2 - 1) s 0 + nth (n / 2) s 0) / 2)%Q
  else nth (n / 2) s 0%Q.

(** [np.nanmedian]: the median of the observed values, not-a-number when
    there is none. *)
Definition nanmedian (l : list cell) : cell :=
  match observed l with
  | [] => None
  | vs => Some (median vs)
  end.

Definition value_imputation (m : method) (values : list cell) : cell :=
  match m with
  | Mean => nanmean values
  | Median => nanmedian values
  | Zeros => Some 0%Q
  end.

(** Modelled from the spec: [qolmat/utils/utils.py] is missing from the
    source tree. Section 4.3 replaces the not-a-number entries by a mean, a
    median or zero and keeps the others. The axis of the statistic is the
    one that [test_rpca_utils_impute_nans] records: the mean (median) of
    the observed values of the entry's column [M[:, j]]. Neither says what
    a column without any observed value gets: its entries stay missing
    here, and no statement below is about them. *)
Definition impute_nans (M : matrix) (m : method) : matrix :=
  map (fun r =>
         imap (fun j c =>
                 match c with
                 | Some v => Some v
                 | None => value_imputation m (column j M)
                 end) r) M.

(** The reading of section 4.3 word for word ("row mean, row median"): the
    statistic is taken over the entry's row. *)
Definition impute_nans_per_row (M : matrix) (m : method) : matrix :=
  map (fun r =>
         map (fun c =>
                match c with
                | Some v => Some v
                | None => value_imputation m r
                end) r) M.

(** *** The data of [tests/utils/test_utils.py] *)

Definition X_incomplete : matrix :=
  [ [Some 1; None; Some 3; Some 2; None];
    [Some 7; Some 2; None; Some 1; Some 1];
    [None; Some 4; Some 3; None; Some 5];
    [None; Some 4; Some 3; Some 5; Some 5];
    [Some 4; Some 4; Some 3; None; Some 5] ]%Q.

Definition X_exp_mean : matrix :=
  [ [Some 1; Some (7 # 2); Some 3; Some 2; Some 4];
    [Some 7; Some 2; Some 3; Some 1; Some 1];
    [Some 4; Some 4; Some 3; Some (8 # 3); Some 5];
    [Some 4; Some 4; Some 3; Some 5; Some 5];
    [Some 4; Some 4; Some 3; Some (8 # 3); Some 5] ]%Q.

Definition X_exp_median : matrix :=
  [ [Some 1; Some 4; Some 3; Some 2; Some 5];
    [Some 7; Some 2; Some 3; Some 1; Some 1];
    [Some 4; Some 4; Some 3; Some 2; Some 5];
    [Some 4; Some 4; Some 3; Some 5; Some 5];
    [Some 4; Some 4; Some 3; Some 2; Some 5] ]%Q.

Definition X_exp_zeros : matrix :=
  [ [Some 1; Some 0; Some 3; Some 2; Some 0];
    [Some 7; Some 2; Some 0; Some 1; Some 1];
    [Some 0; Some 4; Some 3; Some 0; Some 5];
    [Some 0; Some 4; Some 3; Some 5; Some 5];
    [Some 4; Some 4; Some 3; Some 0; Some 5] ]%Q.

(** [expected] of [test_utils_linear_interpolation]. *)
Definition X_exp_interpolation : matrix :=
  [ [Some 1; Some 2; Some 3; Some 2; Some 2];
    [Some 7; Some 2; Some (3 # 2); Some 1; Some 1];
    [Some 4; Some 4; Some 3; Some 4; Some 5];
    [Some 4; Some 4; Some 3; Some 5; Some 5];
    [Some 4; Some 4; Some 3; Some 4; Some 5] ]%Q.

End Utils.

(** ** pandas objects and Python exceptions *)

(** A pandas DataFrame of numbers: the row labels and, for every column,
    its label and its values (one per row label). *)
Record DataFrame : Type := mkDataFrame {
  df_index : list Z;
  df_columns : list (string * list cell)
}.

(** [df.shape]. *)
Definition shape (df : DataFrame) : nat * nat :=
  (length (df_index df), length (df_columns df)).

(** [df.isna().any().any()]. *)
Definition has_nan (df : DataFrame) : bool :=
  existsb (fun c => existsb isnan c.2) (df_columns df).

(** [df.columns[df.isna().any()]]. *)
Definition cols_with_nans (df : DataFrame) : list string :=
  map fst (List.filter (fun c => existsb isnan c.2) (df_columns df)).

(** [df[[col]]]: a new frame with the columns labelled [col]. *)
Definition getitem_cols (df : DataFrame) (col : string) : DataFrame :=
  {| df_index := df_index df;
     df_columns := List.filter (fun c => String.eqb c.1 col) (df_columns df) |}.

(** The exceptions that the modelled functions raise. *)
Inductive pyerror : Type :=
  | ValueError (msg : string)
  | AssertionError (msg : string)
  | KeyError (key : string)
  | Exception (msg : string).

(** ** Benchmark metrics ([qolmat/benchmark/utils.py]) *)

Module Benchmark.

(** The numpy and scipy calls of [frechet_distance], on float arrays of any
    rank ([arr]). What they compute is the libraries' business. The calls
    that check the rank or the content of their argument and raise
    [ValueError] when the check fails ([@], [scipy.linalg.sqrtm],
    [np.trace]) return [inl msg] for [ValueError(msg)]; the other calls
    return a value on every argument. *)
Class NumLib : Type := {
  arr : Type;
  EPS : arr;
  np_std : DataFrame -> arr;
  np_nanmean_axis0 : DataFrame -> arr;
  (** [np.ma.cov(np.ma.masked_invalid(df), rowvar=False).data] *)
  np_ma_cov_masked_invalid : DataFrame -> arr;
  np_sum : arr -> arr;
  np_trace : arr -> string + arr;
  np_ndim : arr -> nat;
  np_reshape_column : arr -> arr;
  np_iscomplexobj : arr -> bool;
  np_real : arr -> arr;
  scipy_linalg_sqrtm : arr -> string + arr;
  arr_add : arr -> arr -> arr;
  arr_sub : arr -> arr -> arr;
  (** [a @ b] *)
  arr_matmul : arr -> arr -> string + arr;
  arr_square : arr -> arr;
  arr_double : arr -> arr;
  arr_halve : arr -> arr;
  arr_div_nat : arr -> nat -> arr;
  (** [(df - mu) / std] *)
  df_center_scale : DataFrame -> arr -> arr -> DataFrame;
  (** [np.ma.cov] ends with [.squeeze()]: the 1 x 1 covariance of a frame
      with a single column comes back as an array of rank 0. *)
  np_ma_cov_one_column :
    forall df : DataFrame,
      (shape df).2 = 1 -> np_ndim (np_ma_cov_masked_invalid df) = 0;
  (** [@] refuses an operand of rank 0 ("matmul: Input operand 0 does not
      have enough dimensions"). *)
  arr_matmul_rank_0 :
    forall a b : arr,
      np_ndim a = 0 -> exists msg : string, arr_matmul a b = inl msg
}.

Section Frechet.
Context {L : NumLib}.

(** The rest of the function after a library call that may raise. *)
Definition np_call {A B : Type} (r : string + A) (k : A -> pyerror + B)
  : pyerror + B :=
  match r with
  | inl msg => inl (ValueError msg)
  | inr a => k a
  end.

(** [frechet_distance(df1, df2, normalized)]. *)
Definition frechet_distance (df1 df2 : DataFrame) (normalized : bool)
  : pyerror + arr :=
  if negb (bool_decide (shape df1 = shape df2))
  then inl (Exception "inputs have to be of same dimensions.")
  else
    let df_true := df1 in
    let df_pred := df2 in
    let '(df_true, df_pred) :=
      if normalized then
        let std := arr_halve (arr_add (arr_add (np_std df_true) (np_std df_pred)) EPS) in
        let mu := arr_halve (arr_add (np_nanmean_axis0 df_true)
                                     (np_nanmean_axis0 df_pred)) in
        (df_center_scale df_true mu std, df_center_scale df_pred mu std)
      else (df_true, df_pred) in
    let mu_true := np_nanmean_axis0 df_true in
    let sigma_true := np_ma_cov_masked_invalid df_true in
    let mu_pred := np_nanmean_axis0 df_pred in
    let sigma_pred := np_ma_cov_masked_invalid df_pred in
    let ssdiff := np_sum (arr_square (arr_sub mu_true mu_pred)) in
    np_call (arr_matmul sigma_true sigma_pred) (fun product =>
    let product :=
      if np_ndim product <? 2 then np_reshape_column product else product in
    np_call (scipy_linalg_sqrtm product) (fun covmean =>
    let covmean := if np_iscomplexobj covmean then np_real covmean else covmean in
    np_call (np_trace (arr_sub (arr_add sigma_true sigma_pred)
                               (arr_double covmean))) (fun trace =>
    let frechet_dist := arr_add ssdiff trace in
    if normalized
    then inr (arr_div_nat frechet_dist (shape df_true).1)
    else inr frechet_dist))).

End Frechet.

(** *** An instance for the examples *)

(** numpy seen through the rank of its arrays only: an array is its number
    of dimensions. *)
Definition rank_cov (df : DataFrame) : nat :=
  match (shape df).2 with
  | 1 => 0
  | _ => 2
  end.

Definition rank_matmul (a b : nat) : string + nat :=
  match a, b with
  | 0, _ => inl "matmul: Input operand 0 does not have enough dimensions"
  | _, 0 => inl "matmul: Input operand 1 does not have enough dimensions"
  | S a', S b' => inr (a' + b')
  end.

Definition rank_sqrtm (a : nat) : string + nat :=
  if a =? 2 then inr 2 else inl "Non-square array required".

Definition rank_trace (a : nat) : string + nat :=
  if a <? 2
  then inl "diag requires an array of at least two dimensions"
  else inr (a - 2).

Definition numpy_ranks : NumLib :=
  {| arr := nat;
     EPS := 0;
     np_std := fun _ => 1;
     np_nanmean_axis0 := fun _ => 1;
     np_ma_cov_masked_invalid := rank_cov;
     np_sum := fun _ => 0;
     np_trace := rank_trace;
     np_ndim := fun a => a;
     np_reshape_column := fun _ => 2;
     np_iscomplexobj := fun _ => false;
     np_real := fun a => a;
     scipy_linalg_sqrtm := rank_sqrtm;
     arr_add := Nat.max;
     arr_sub := Nat.max;
     arr_matmul := rank_matmul;
     arr_square := fun a => a;
     arr_double := fun a => a;
     arr_halve := fun a => a;
     arr_div_nat := fun a _ => a;
     df_center_scale := fun df _ _ => df;
     np_ma_cov_one_column := fun df H =>
       @eq_ind_r nat 1 (fun n => match n with 1 => 0 | _ => 2 end = 0)
         eq_refl _ H;
     arr_matmul_rank_0 := fun a b H =>
       @eq_ind_r nat 0
         (fun n => exists msg : string, rank_matmul n b = inl msg)
         (ex_intro _ _ eq_refl) _ H |}.

(** Two frames of three rows and a single column. *)
Definition df_one_column : DataFrame :=
  {| df_index := [0; 1; 2]%Z;
     df_columns := [("a"%string, [Some 1; Some 2; Some 3]%Q)] |}.

Definition df_one_column_pred : DataFrame :=
  {| df_index := [0; 1; 2]%Z;
     df_columns := [("a"%string, [Some 2; Some 2; Some 5]%Q)] |}.

End Benchmark.

(** ** The imputer wrappers ([qolmat/imputations/models.py]) *)

Module Models.

(** *** The object store *)

(** The identity of a DataFrame object. Two names are aliases when they
    hold the same location. *)
Abbreviation loc := positive.

(** An argument as a caller may pass it: a reference to a DataFrame, or an
    object of another class. *)
Inductive pyobj : Type :=
  | PyDataFrame (l : loc)
  | PyOther.

(** A computation that reads and writes the store of the DataFrame objects
    and returns or raises. *)
Definition py (A : Type) : Type :=
  gmap loc DataFrame -> gmap loc DataFrame * (pyerror + A).

Definition ret {A} (a : A) : py A := fun h => (h, inr a).

Definition raise {A} (e : pyerror) : py A := fun h => (h, inl e).

Definition bind {A B} (m : py A) (k : A -> py B) : py B :=
  fun h =>
    match m h with
    | (h', inr a) => k a h'
    | (h', inl e) => (h', inl e)
    end.

Notation "x <- m ;; k" := (bind m (fun x => k))
  (at level 100, m at next level, right associativity).
Notation "m ;;; k" := (bind m (fun _ => k))
  (at level 100, right associativity).

(** A new object holding [df]; its location is not in use. *)
Definition alloc (df : DataFrame) : py loc :=
  fun h => let l := fresh (dom h) in (<[l := df]> h, inr l).

(** The value of the object at [l]. *)
Definition load (l : loc) : py DataFrame :=
  fun h =>
    match h !! l with
    | Some df => (h, inr df)
    | None => (h, inl (Exception "no such object"))
    end.

(** In-place update of the object at [l]. *)
Definition store (l : loc) (df : DataFrame) : py unit :=
  fun h => (<[l := df]> h, inr tt).

(** *** pandas *)

(** The second argument of [DataFrame.fillna]: a scalar, a Series indexed
    by column labels, or a DataFrame. *)
Inductive fill_value : Type :=
  | FillScalar (c : cell)
  | FillSeries (s : list (string * cell))
  | FillFrame (df : DataFrame).

(** The pandas operations whose result the wrappers pass along without
    looking into it. All of them build new objects. *)
Class Pandas : Type := {
  (** [df.fillna(value)] *)
  fillna : DataFrame -> fill_value -> DataFrame;
  (** the frame [df] after [df[col] = value] *)
  setitem_column : DataFrame -> string -> DataFrame -> DataFrame;
  (** the frames that [df.groupby(groups, group_keys=False)] hands to the
      function given to [apply] *)
  groupby_groups : DataFrame -> list string -> pyerror + list DataFrame;
  (** what [apply] makes of the results for the groups *)
  groupby_combine : DataFrame -> list string -> list fill_value -> fill_value
}.

(** *** Hyperparameters *)

Inductive HyperValue : Type :=
  | HInt (n : Z)
  | HFloat (x : Q)
  | HStr (s : string).

(** A hyperparameter is one value, or a dict of one value per column. *)
Inductive hyperparam : Type :=
  | HPlain (v : HyperValue)
  | HDict (d : gmap string HyperValue).

(** [value[col]] when [value] is a dict, [value] otherwise. *)
Definition resolve (col : string) (value : hyperparam) : option hyperparam :=
  match value with
  | HDict d => HPlain <$> d !! col
  | HPlain _ => Some value
  end.

(** The loop that fills [self.hyperparams_element] for column [col]; a
    dict without the key [col] raises [KeyError]. *)
Definition element_hyperparams (col : string)
    (hyperparams : gmap string hyperparam)
  : pyerror + gmap string hyperparam :=
  if bool_decide (map_Forall (fun _ v => is_Some (resolve col v)) hyperparams)
  then inr (omap (resolve col) hyperparams)
  else inl (KeyError col).

(** *** The class [Imputer] *)

(** [fit_transform_element] of a subclass: it receives the hyperparameters
    of the element and a reference to one frame; it may change this frame
    in place (its first result is the frame after the call) and returns
    the imputation values or raises. *)
Definition element_imputation : Type :=
  gmap string hyperparam -> DataFrame -> DataFrame * (pyerror + fill_value).

Record Imputer : Type := mkImputer {
  hyperparams_user : gmap string hyperparam;
  hyperparams_optim : gmap string hyperparam;
  groups : list string;
  columnwise : bool;
  fit_transform_element : element_imputation
}.

Section Imputer.
Context {P : Pandas}.
Variable self : Imputer.

(** [self.fit_transform_element(df)] on the object at [l]. *)
Definition call_element (hyperparams_element : gmap string hyperparam)
    (l : loc) : py fill_value :=
  X <- load l ;;
  let '(X', r) := fit_transform_element self hyperparams_element X in
  store l X' ;;;
  match r with
  | inl e => raise e
  | inr v => ret v
  end.

(** [groupby.apply(self.fit_transform_element)]: every group is a frame
    of its own, handed to the function in turn. *)
Fixpoint apply_groups (hyperparams_element : gmap string hyperparam)
    (gs : list DataFrame) : py (list fill_value) :=
  match gs with
  | [] => ret []
  | g :: gs' =>
      lg <- alloc g ;;
      v <- call_element hyperparams_element lg ;;
      vs <- apply_groups hyperparams_element gs' ;;
      ret (v :: vs)
  end.

(** [Imputer.impute_element(df)]. *)
Definition impute_element (hyperparams_element : gmap string hyperparam)
    (df : pyobj) : py loc :=
  match df with
  | PyOther => raise (ValueError "Input has to be a pandas.DataFrame.")
  | PyDataFrame l =>
      X <- load l ;;
      df <- alloc X ;;
      imputation_values <-
        (match groups self with
         | _ :: _ =>
             match groupby_groups X (groups self) with
             | inl e => raise e
             | inr gs =>
                 vs <- apply_groups hyperparams_element gs ;;
                 ret (groupby_combine X (groups self) vs)
             end
         | [] => call_element hyperparams_element df
         end) ;;
      X1 <- load df ;;
      alloc (fillna X1 imputation_values)
  end.

(** The loop over [cols_with_nans] of the column-wise branch; [l] is the
    caller's frame and [df_imputed] the copy that receives the columns. *)
Fixpoint impute_columns (hyperparams : gmap string hyperparam)
    (l df_imputed : loc) (cols : list string) : py unit :=
  match cols with
  | [] => ret tt
  | col :: cols' =>
      match element_hyperparams col hyperparams with
      | inl e => raise e
      | inr hyperparams_element =>
          X <- load l ;;
          df_col <- alloc (getitem_cols X col) ;;
          res <- impute_element hyperparams_element (PyDataFrame df_col) ;;
          R <- load res ;;
          D <- load df_imputed ;;
          store df_imputed (setitem_column D col R) ;;;
          impute_columns hyperparams l df_imputed cols'
      end
  end.

(** The two branches on [self.columnwise] of [fit_transform], which bind
    [df_imputed]; [X] is the value of the caller's frame at [l]. *)
Definition impute_frame (hyperparams : gmap string hyperparam)
    (l : loc) (X : DataFrame) : py loc :=
  if columnwise self then
    df_imputed <- alloc X ;;
    impute_columns hyperparams l df_imputed (cols_with_nans X) ;;;
    ret df_imputed
  else impute_element hyperparams (PyDataFrame l).

(** [Imputer.fit_transform(df)]. *)
Definition fit_transform (df : pyobj) : py loc :=
  match df with
  | PyOther => raise (ValueError "Input has to be a pandas.DataFrame.")
  | PyDataFrame l =>
      X <- load l ;;
      let hyperparams := hyperparams_optim self ∪ hyperparams_user self in
      df_imputed <- impute_frame hyperparams l X ;;
      R <- load df_imputed ;;
      if has_nan R
      then raise (AssertionError "Result of imputation contains NaN!")
      else ret df_imputed
  end.

End Imputer.

(** *** The classes [ImputerMean] and [ImputerMedian] *)

(** [pd.DataFrame.mean] and [pd.DataFrame.median]: a Series with one
    statistic per column; the frame is left as it is. *)
Definition column_statistics (stat : list cell -> cell)
  : element_imputation :=
  fun _ df =>
    (df, inr (FillSeries (map (fun c => (c.1, stat c.2)) (df_columns df)))).

Definition ImputerMean (groups : list string) : Imputer :=
  {| hyperparams_user := ∅;
     hyperparams_optim := ∅;
     groups := groups;
     columnwise := true;
     fit_transform_element := column_statistics Utils.nanmean |}.

Definition ImputerMedian (groups : list string) : Imputer :=
  {| hyperparams_user := ∅;
     hyperparams_optim := ∅;
     groups := groups;
     columnwise := true;
     fit_transform_element := column_statistics Utils.nanmedian |}.

(** *** The class [ImputerShuffle] *)

(** [values[values.isna()] = samples]: the missing entries take the
    samples in order. *)
Fixpoint fill_missing (values : list cell) (samples : list Q) : list cell :=
  match values with
  | [] => []
  | Some v :: values' => Some v :: fill_missing values' samples
  | None :: values' =>
      match samples with
      | x :: samples' => Some x :: fill_missing values' samples'
      | [] => None :: fill_missing values' []
      end
  end.

(** [ImputerShuffle.fit_transform_element]; [choice values n] stands for
    [np.random.choice(values, n, replace=True)]. A frame without any
    observed value is returned as it is. Otherwise the assignment to
    [values], the first column of the frame it was handed, is taken to
    write through to that frame. *)
Definition shuffle_element (choice : list Q -> nat -> list Q)
  : element_imputation :=
  fun _ df =>
    let n_missing :=
      length (List.filter isnan (concat (map snd (df_columns df)))) in
    if forallb (fun c => forallb isnan c.2) (df_columns df)
    then (df, inr (FillFrame df))
    else
      match df_columns df with
      | [] => (df, inr (FillFrame df))
      | (name, values) :: others =>
          let values_notna := Utils.observed values in
          let samples := choice values_notna n_missing in
          let values := fill_missing values samples in
          ({| df_index := df_index df;
              df_columns := (name, values) :: others |},
           inr (FillFrame {| df_index := df_index df;
                             df_columns := [(name, values)] |}))
      end.

Definition ImputerShuffle (choice : list Q -> nat -> list Q)
    (groups : list string) : Imputer :=
  {| hyperparams_user := ∅;
     hyperparams_optim := ∅;
     groups := groups;
     columnwise := true;
     fit_transform_element := shuffle_element choice |}.

(** *** Stand-ins for the examples *)

(** A draw that always picks the first value. *)
Definition choice_first (values : list Q) (n : nat) : list Q :=
  replicate n (hd 0%Q values).

(** The value that [fillna] takes for the column [name] at row [i]. *)
Definition fill_at (value : fill_value) (name : string) (i : nat) : cell :=
  match value with
  | FillScalar c => c
  | FillSeries s =>
      default None (snd <$> List.find (fun e => String.eqb e.1 name) s)
  | FillFrame d =>
      match List.find (fun e => String.eqb e.1 name) (df_columns d) with
      | Some (_, cs) => default None (cs !! i)
      | None => None
      end
  end.

(** pandas on frames whose rows are aligned by position, without
    grouping: enough to run the wrappers on the examples below. *)
Definition pandas_by_position : Pandas :=
  {| fillna := fun df value =>
       {| df_index := df_index df;
          df_columns :=
            map (fun c =>
                   (c.1, imap (fun i x =>
                                 match x with
                                 | Some v => Some v
                                 | None => fill_at value c.1 i
                                 end) c.2))
                (df_columns df) |};
     setitem_column := fun df col value =>
       match df_columns value with
       | (_, cs) :: _ =>
           {| df_index := df_index df;
              df_columns :=
                map (fun c => if String.eqb c.1 col then (c.1, cs) else c)
                    (df_columns df) |}
       | [] => df
       end;
     groupby_groups := fun df _ => inr [df];
     groupby_combine := fun _ _ vs => default (FillScalar None) (head vs) |}.

Definition df_example : DataFrame :=
  {| df_index := [0; 1; 2]%Z;
     df_columns := [("var1", [Some 1; None; Some 2]);
                    ("var2", [Some 4; Some 5; Some 6])]%Q |}.

(** The column "var1" has no observed value at all. *)
Definition df_empty_column : DataFrame :=
  {| df_index := [0; 1]%Z;
     df_columns := [("var1", [None; None]);
                    ("var2", [Some 4; Some 5])]%Q |}.

Definition heap_example : gmap loc DataFrame :=
  <[1%positive := df_example]> (<[2%positive := df_empty_column]> ∅).

End Models.

(** ** Scoring an imputer ([robust_pca/classes/evaluate_imputer.py]) *)

Module Evaluate.

(** *** Loops that may return from their body *)

Inductive flow (S R : Type) : Type :=
  | Continue (s : S)
  | Return (r : R).
Arguments Continue {S R} s.
Arguments Return {S R} r.

(** [for x in xs: body]: the state after the last iteration, or the value
    returned by the first iteration that executes a [return]. *)
Fixpoint for_each {X S R : Type} (body : X -> S -> flow S R)
    (xs : list X) (s : S) : S + R :=
  match xs with
  | [] => inl s
  | x :: xs' =>
      match body x s with
      | Continue s' => for_each body xs' s'
      | Return r => inr r
      end
  end.

(** *** Series *)

(** A pandas Series with the default index: the label of a value is its
    position. *)
Abbreviation series := (list cell).

(** [s.loc[indices]]. *)
Definition loc_get (s : series) (indices : list nat) : series :=
  map (fun i => default None (s !! i)) indices.

(** [s.loc[indices] = np.nan]. *)
Definition loc_set_nan (s : series) (indices : list nat) : series :=
  foldl (fun acc i => <[i := None]> acc) s indices.

(** [signal.loc[signal > 0].index]. *)
Definition positive_indices (s : series) : list nat :=
  omap (fun p : nat * cell =>
          match p.2 with
          | Some v => if Qlt_le_dec 0 v then Some p.1 else None
          | None => None
          end) (imap (fun i c => (i, c)) s).

Definition np_mean (l : list Q) : Q :=
  (foldr Qplus 0 l / inject_Z (Z.of_nat (length l)))%Q.

(** *** The class [EvaluateImputor] *)

Record EvaluateImputor : Type := mkEvaluateImputor {
  signal : series;
  nan_subsets : list (list nat)
}.

Section Init.
(** The generator returned by [check_random_state] and sklearn's
    [resample(indices, replace=False, n_samples=n, random_state=...)],
    which draws from the generator. *)
Variable RandomState : Type.
Variable resample : list nat -> nat -> RandomState -> list nat * RandomState.
(** [floor(len(indices) * prop)]. Python multiplies in double precision and
    rounds the product before it takes the floor, which is not the floor of
    the exact product in general; the operation is left to the caller. *)
Variable floor_product : nat -> Q -> nat.

(** The loop [for _ in range(cv)] of [__init__]. *)
Fixpoint draw_subsets (indices : list nat) (n_samples cv : nat)
    (random_state : RandomState) : list (list nat) :=
  match cv with
  | O => []
  | S cv' =>
      let '(subset, random_state') := resample indices n_samples random_state in
      subset :: draw_subsets indices n_samples cv' random_state'
  end.

(** [EvaluateImputor.__init__(signal, prop, cv, random_state)]. *)
Definition init (signal : series) (prop : Q) (cv : nat)
    (random_state : RandomState) : EvaluateImputor :=
  let indices := positive_indices signal in
  let n_samples := floor_product (length indices) prop in
  {| signal := signal;
     nan_subsets := draw_subsets indices n_samples cv random_state |}.

End Init.

(** The four scores that [func] returns and the dict that
    [scores_imputor] returns. *)
Record scores : Type := mkScores {
  rmse : Q;
  mae : Q;
  mape : Q;
  wmape : Q
}.

(** The local variables of [scores_imputor], and the arrays that
    [imputor.fit_transform] has been called with so far. *)
Record locals : Type := mkLocals {
  transform_signal : series;
  RMSE : list Q;
  MAE : list Q;
  MAPE : list Q;
  WMAPE : list Q;
  calls : list series
}.

Section Scores.
Variable self : EvaluateImputor.
(** The first component of [imputor.fit_transform(values)]. *)
Variable imputor : series -> series.
(** [func(y_true, y_pred)]; by default [eval]. *)
Variable func : series -> series -> scores.

(** The body of the loop over [self.nan_subsets]; its last statement is
    the [return]. *)
Definition scores_body (nan_indices : list nat) (st : locals)
  : flow locals (scores * list series) :=
  let transform_signal := loc_set_nan (transform_signal st) nan_indices in
  let impute_signal := imputor transform_signal in
  let s := func (loc_get (signal self) nan_indices)
                (loc_get impute_signal nan_indices) in
  let RMSE := RMSE st ++ [rmse s] in
  let MAE := MAE st ++ [mae s] in
  let MAPE := MAPE st ++ [mape s] in
  let WMAPE := WMAPE st ++ [wmape s] in
  Return ({| rmse := np_mean RMSE;
             mae := np_mean MAE;
             mape := np_mean MAPE;
             wmape := np_mean WMAPE |},
          calls st ++ [transform_signal]).

(** [EvaluateImputor.scores_imputor(imputor, func)]: the returned dict
    ([None] when the function falls off its end) and the arrays that the
    imputer was run on. *)
Definition scores_imputor : option scores * list series :=
  let st := {| transform_signal := signal self;
               RMSE := []; MAE := []; MAPE := []; WMAPE := [];
               calls := [] |} in
  match for_each scores_body (nan_subsets self) st with
  | inl st' => (None, calls st')
  | inr (d, cs) => (Some d, cs)
  end.

End Scores.

(** *** Stand-ins for the examples *)

(** A deterministic stand-in for [resample]: the generator is a counter,
    and the draw takes the [n] indices that follow the first [counter]. *)
Definition resample_window (indices : list nat) (n : nat) (counter : nat)
  : list nat * nat :=
  (take n (drop counter indices), S counter).

(** The floor of the exact product: what Python computes when the product
    is itself a double, as it is for a proportion of one half. *)
Definition floor_product_exact (n : nat) (prop : Q) : nat :=
  Z.to_nat (Qfloor (inject_Z (Z.of_nat n) * prop)).

(** An imputer that fills the missing values with zero. *)
Definition imputor_zeros (values : series) : series :=
  map (fun c => Some (default 0%Q c)) values.

(** A scoring function: the mean absolute error for every score. *)
Definition func_mae (y_true y_pred : series) : scores :=
  let err :=
    np_mean (zip_with (fun a b => Qabs (default 0 a - default 0 b))%Q
                      y_true y_pred) in
  {| rmse := err; mae := err; mape := err; wmape := err |}.

Definition signal_example : series :=
  [Some 3; Some 0; Some 5; Some 2; None; Some 4; Some 1; Some 6]%Q.

End Evaluate.

(** ** Hyperparameter search ([qolmat/benchmark/hyperparameters.py] and
    the search space of [qolmat/benchmark/utils.py]) *)

Module Hyperparameters.

(** The exceptions of this part: those of [pyerror], and two more. *)
Inductive pyexc : Type :=
  | Builtin (e : pyerror)
  | TypeError (msg : string)
  | UnboundLocalError (name : string).

(** *** Strings *)

(** [sep in s], for a separator of one character. *)
Fixpoint contains (sep : Ascii.ascii) (s : string) : bool :=
  match s with
  | EmptyString => false
  | String c s' => Ascii.eqb c sep || contains sep s'
  end.

(** [s.split(sep)], for a separator of one character: the pieces between
    the separators, at least one. *)
Fixpoint split (sep : Ascii.ascii) (s : string) : list string :=
  match s with
  | EmptyString => [EmptyString]
  | String c s' =>
      if Ascii.eqb c sep then EmptyString :: split sep s'
      else
        match split sep s' with
        | piece :: pieces => String c piece :: pieces
        | [] => [String c EmptyString]
        end
  end.

(** *** [get_hyperparams] *)

Section GetHyperparams.
Context {V : Type}.

(** The loop of [get_hyperparams] over the items of [hyperparams_global],
    in the order of the dict; [hyperparams] is the dict built so far. The
    unpacking [name_param, col2 = key.split("/")] raises [ValueError] when
    the key has more than one "/". *)
Fixpoint get_hyperparams_loop (items : list (string * V)) (col : string)
    (hyperparams : gmap string V) : pyexc + gmap string V :=
  match items with
  | [] => inr hyperparams
  | (key, value) :: items' =>
      if negb (contains "/"%char key)
      then get_hyperparams_loop items' col (<[key := value]> hyperparams)
      else
        match split "/"%char key with
        | [name_param; col2] =>
            if String.eqb col2 col
            then get_hyperparams_loop items' col
                   (<[name_param := value]> hyperparams)
            else get_hyperparams_loop items' col hyperparams
        | _ =>
            inl (Builtin (ValueError "too many values to unpack (expected 2)"))
        end
  end.

(** [get_hyperparams(hyperparams_global, col)]; the dict
    [hyperparams_global] is the list of its items, in order. *)
Definition get_hyperparams (hyperparams_global : list (string * V))
    (col : string) : pyexc + gmap string V :=
  get_hyperparams_loop hyperparams_global col ∅.

(** The name under which the value of [key] is stored for the column
    [col], if it is stored at all: the key itself when it has no "/", the
    part before the "/" when the part after it is [col]. *)
Definition param_name (col key : string) : option string :=
  if negb (contains "/"%char key) then Some key
  else
    match split "/"%char key with
    | [name_param; col2] =>
        if String.eqb col2 col then Some name_param else None
    | _ => None
    end.

(** The value of the last item of the dict that is stored under the name
    [name]. *)
Fixpoint selected (col name : string) (items : list (string * V))
  : option V :=
  match items with
  | [] => None
  | (key, value) :: items' =>
      match selected col name items' with
      | Some v => Some v
      | None =>
          if bool_decide (param_name col key = Some name)
          then Some value else None
      end
  end.

End GetHyperparams.

(** *** [get_dimension] and [get_search_space] *)

(** The values found in the configuration of a search: strings, numbers,
    lists and dicts (the list of their items, in order). *)
#[warnings="-register-all"]
Inductive pyval : Type :=
  | PStr (s : string)
  | PNum (x : Q)
  | PList (l : list pyval)
  | PDict (d : list (string * pyval)).

(** [d[key]] on the items of a dict. *)
Definition dict_get (d : list (string * pyval)) (key : string)
  : pyexc + pyval :=
  match List.find (fun e => String.eqb e.1 key) d with
  | Some (_, v) => inr v
  | None => inl (Builtin (KeyError key))
  end.

(** [v[key]] for a key that is a string: only a dict can be indexed so. *)
Definition getitem (v : pyval) (key : string) : pyexc + pyval :=
  match v with
  | PDict d => dict_get d key
  | PStr _ => inl (TypeError "string indices must be integers")
  | PList _ => inl (TypeError "list indices must be integers or slices, not str")
  | PNum _ => inl (TypeError "object is not subscriptable")
  end.

(** [key in d] on the items of a dict. *)
Definition dict_mem (key : string) (d : list (string * pyval)) : bool :=
  existsb (fun e => String.eqb e.1 key) d.

(** The dimensions of skopt, as the constructor calls that build them; the
    checks that skopt makes on the bounds are not part of this model. *)
Inductive Dimension : Type :=
  | Integer (low high : pyval) (name : string)
  | Real (low high : pyval) (name : string)
  | Categorical (categories : pyval) (name : string).

Definition dimension_name (d : Dimension) : string :=
  match d with
  | Integer _ _ name => name
  | Real _ _ name => name
  | Categorical _ name => name
  end.

Definition is_str (v : pyval) (s : string) : bool :=
  match v with PStr s' => String.eqb s' s | _ => false end.

(** [get_dimension(dict_bounds, name_dimension)]; [None] is the value that
    the function returns when it falls off its end. *)
Definition get_dimension (dict_bounds : pyval) (name_dimension : string)
  : pyexc + option Dimension :=
  match getitem dict_bounds "type" with
  | inl e => inl e
  | inr ty =>
      if is_str ty "Integer" then
        match getitem dict_bounds "min" with
        | inl e => inl e
        | inr low =>
            match getitem dict_bounds "max" with
            | inl e => inl e
            | inr high => inr (Some (Integer low high name_dimension))
            end
        end
      else if is_str ty "Real" then
        match getitem dict_bounds "min" with
        | inl e => inl e
        | inr low =>
            match getitem dict_bounds "max" with
            | inl e => inl e
            | inr high => inr (Some (Real low high name_dimension))
            end
        end
      else if is_str ty "Categorical" then
        match getitem dict_bounds "categories" with
        | inl e => inl e
        | inr categories => inr (Some (Categorical categories name_dimension))
        end
      else inr None
  end.

(** The inner loop of [get_search_space], over the columns of one
    hyperparameter. *)
Fixpoint column_dimensions (name_hyperparam : string)
    (items : list (string * pyval)) : pyexc + list (option Dimension) :=
  match items with
  | [] => inr []
  | (col, dict_bounds) :: items' =>
      match get_dimension dict_bounds (name_hyperparam +:+ "/" +:+ col) with
      | inl e => inl e
      | inr d =>
          match column_dimensions name_hyperparam items' with
          | inl e => inl e
          | inr ds => inr (d :: ds)
          end
      end
  end.

(** [get_search_space(search_params)]; every value of [search_params] is a
    dict. *)
Fixpoint get_search_space
    (search_params : list (string * list (string * pyval)))
  : pyexc + list (option Dimension) :=
  match search_params with
  | [] => inr []
  | (name_hyperparam, value) :: search_params' =>
      match
        (if dict_mem "type" value
         then
           match get_dimension (PDict value) name_hyperparam with
           | inl e => inl e
           | inr d => inr [d]
           end
         else column_dimensions name_hyperparam value)
      with
      | inl e => inl e
      | inr ds =>
          match get_search_space search_params' with
          | inl e => inl e
          | inr ds' => inr (ds ++ ds')
          end
      end
  end.

(** The names of the dimensions of a search space, in order: the name of
    the hyperparameter when its dict has the key "type", and otherwise
    one name [hyperparameter/column] for every column of its dict. *)
Definition space_names
    (search_params : list (string * list (string * pyval))) : list string :=
  flat_map
    (fun e : string * list (string * pyval) =>
       if existsb (fun b : string * pyval => String.eqb b.1 "type") e.2
       then [e.1]
       else map (fun b : string * pyval => e.1 +:+ "/" +:+ b.1) e.2)
    search_params.

End Hyperparameters.

(** ** The classes [ImputerLOCF] and [ImputerNOCB]
    ([qolmat/imputations/models.py]) *)

Module Imputers.
Import Models.

(** [c] when it is observed, [d] otherwise. *)
Definition orelse (c d : cell) : cell :=
  match c with Some v => Some v | None => d end.

(** [pd.Series.shift(values, 1)]: every value moves one row down, the
    first row becomes missing and the last value is dropped. *)
Definition shift1 (values : list cell) : list cell :=
  take (length values) (None :: values).

(** [Series.ffill()]: a missing value takes the last observed value
    before it; [last] is the last observed value seen so far. *)
Fixpoint ffill_from (last : cell) (values : list cell) : list cell :=
  match values with
  | [] => []
  | c :: values' => orelse c last :: ffill_from (orelse c last) values'
  end.

Definition ffill (values : list cell) : list cell := ffill_from None values.

(** [Series.bfill()]: a missing value takes the first observed value
    after it. *)
Fixpoint bfill (values : list cell) : list cell :=
  match values with
  | [] => []
  | c :: values' =>
      let filled := bfill values' in
      orelse c (default None (head filled)) :: filled
  end.

(** The loop [for col in df: df_out[col] = ...] on a frame whose column
    labels are distinct: every column is replaced by its image. *)
Definition map_columns (f : list cell -> list cell) (df : DataFrame)
  : DataFrame :=
  {| df_index := df_index df;
     df_columns := map (fun c => (c.1, f c.2)) (df_columns df) |}.

(** [ImputerLOCF.fit_transform_element]:
    [pd.Series.shift(df[col], 1).ffill().bfill()] for every column. *)
Definition locf_column (values : list cell) : list cell :=
  bfill (ffill (shift1 values)).

Definition locf_element : element_imputation :=
  fun _ df => (df, inr (FillFrame (map_columns locf_column df))).

Definition ImputerLOCF (groups : list string) : Imputer :=
  {| hyperparams_user := ∅;
     hyperparams_optim := ∅;
     groups := groups;
     columnwise := true;
     fit_transform_element := locf_element |}.

(** [ImputerNOCB.fit_transform_element]:
    [pd.Series.shift(df[col], 1).bfill().ffill()] for every column. *)
Definition nocb_column (values : list cell) : list cell :=
  ffill (bfill (shift1 values)).

Definition nocb_element : element_imputation :=
  fun _ df => (df, inr (FillFrame (map_columns nocb_column df))).

Definition ImputerNOCB (groups : list string) : Imputer :=
  {| hyperparams_user := ∅;
     hyperparams_optim := ∅;
     groups := groups;
     columnwise := true;
     fit_transform_element := nocb_element |}.

(** The first and the last observed value of a list of values. *)
Definition first_obs (values : list cell) : cell :=
  head (Utils.observed values).

Definition last_obs (values : list cell) : cell :=
  last (Utils.observed values).

(** A frame without missing entries, and a store that holds it. *)
Definition df_complete : DataFrame :=
  {| df_index := [0; 1]%Z;
     df_columns := [("var1", [Some 1; Some 2]%Q)] |}.

Definition heap_complete : gmap loc DataFrame :=
  <[1%positive := df_complete]> ∅.

(** An imputer by the mean with a number of neighbours given per column,
    for the column "var2" only. *)
Definition imputer_per_column : Imputer :=
  {| hyperparams_user :=
       <["n_neighbors" := HDict (<["var2" := HInt 3]> ∅)]> ∅;
     hyperparams_optim := ∅;
     groups := [];
     columnwise := true;
     fit_transform_element := column_statistics Utils.nanmean |}.

End Imputers.

(** ** The column-wise imputers of [robust_pca/imputations/models.py] *)

Module ColumnWise.

(** [df[col]] for a label of [df.columns]: the values of the column. *)
Definition getitem_col (df : DataFrame) (col : string) : option (list cell) :=
  snd <$> List.find (fun c => String.eqb c.1 col) (df_columns df).

(** The frame after [imputed[col] = values], for an array [values] of the
    length of the index. *)
Definition setitem_values (imputed : DataFrame) (col : string)
    (values : list cell) : DataFrame :=
  {| df_index := df_index imputed;
     df_columns :=
       map (fun c => if String.eqb c.1 col then (c.1, values) else c)
           (df_columns imputed) |}.

(** The frame after [imputed.fillna(0, inplace=True)]. *)
Definition fillna_zero (imputed : DataFrame) : DataFrame :=
  {| df_index := df_index imputed;
     df_columns :=
       map (fun c => (c.1, map (fun x : cell => Some (default 0%Q x)) c.2))
           (df_columns imputed) |}.

Section FitTransform.
(** [self.fit_transform_col(signal, col_to_impute=col).values] of a
    subclass, as a function of the values of the column. *)
Variable fit_transform_col : list cell -> string -> pyerror + list cell.

(** The loop [for col in col_to_impute] of
    [ImputeColumnWise.fit_transform]; an array of another length than the
    index cannot be assigned to a column. *)
Fixpoint impute_each (df : DataFrame) (col_to_impute : list string)
    (imputed : DataFrame) : pyerror + DataFrame :=
  match col_to_impute with
  | [] => inr imputed
  | col :: cols =>
      match getitem_col df col with
      | None => inl (KeyError col)
      | Some signal =>
          match fit_transform_col signal col with
          | inl e => inl e
          | inr values =>
              if length values =? length (df_index imputed)
              then impute_each df cols (setitem_values imputed col values)
              else inl (ValueError
                          "Length of values does not match length of index")
          end
      end
  end.

(** [ImputeColumnWise.fit_transform(df)]. *)
Definition fit_transform (df : DataFrame) : pyerror + DataFrame :=
  let col_to_impute := map fst (df_columns df) in
  let imputed := df in
  match impute_each df col_to_impute imputed with
  | inl e => inl e
  | inr imputed => inr (fillna_zero imputed)
  end.

End FitTransform.


(** A column imputer that proposes the first value of the column for
    every row, missing if the first value is. *)
Definition first_value_col (signal : list cell) (col : string)
  : pyerror + list cell :=
  inr (replicate (length signal) (default None (head signal))).

Definition df_two_columns : DataFrame :=
  {| df_index := [0; 1]%Z;
     df_columns := [("var1", [None; Some 2]); ("var2", [Some 4; None])]%Q |}.

End ColumnWise.

(** ** The objective of the search
    ([get_objective] of [qolmat/benchmark/hyperparameters.py]) *)

Module Objective.
Import Hyperparameters.

(** What [fun_obf] calls and does not define: the imputer's
    [fit_transform] (which depends on the attributes of the imputer), the
    generator of masks, the pandas operations on frames and masks, the
    metric and numpy's mean. *)
Class Env : Type := {
  HyperValue : Type;
  Mask : Type;
  Errors : Type;
  (** [imputer.fit_transform(df)] for an imputer with these attributes *)
  imputer_fit_transform : gmap string HyperValue -> DataFrame -> pyexc + DataFrame;
  (** [generator.split(df)], the masks in order *)
  generator_split : DataFrame -> list Mask;
  (** [generator.subset] *)
  generator_subset : list string;
  (** the frame [df] after [df[df_mask] = np.nan] *)
  setitem_mask_nan : DataFrame -> Mask -> DataFrame;
  (** [df[subset]] and [df_mask[subset]] *)
  getitem_subset : DataFrame -> list string -> pyexc + DataFrame;
  getitem_subset_mask : Mask -> list string -> pyexc + Mask;
  (** [metrics.get_metric(metric)] *)
  get_metric : pyexc + (DataFrame -> DataFrame -> Mask -> pyexc + Errors);
  (** [np.mean(errors)] *)
  np_mean : Errors -> Q
}.

Section GetObjective.
Context {E : Env}.

(** The loop [for key, value in zip(names_hyperparams, args)] with its
    [setattr(imputer, key, value)], on the attributes of the imputer. *)
Fixpoint setattrs (attributes : gmap string HyperValue)
    (names_hyperparams : list string) (args : list HyperValue)
  : gmap string HyperValue :=
  match names_hyperparams, args with
  | key :: names', value :: args' =>
      setattrs (<[key := value]> attributes) names' args'
  | _, _ => attributes
  end.

(** One iteration of the loop over the masks: the value that it binds to
    [errors]. *)
Definition split_errors (attributes : gmap string HyperValue)
    (df : DataFrame) (df_mask : Mask) : pyexc + Errors :=
  let df_origin := df in
  let df_corrupted := setitem_mask_nan df_origin df_mask in
  match imputer_fit_transform attributes df_corrupted with
  | inl e => inl e
  | inr df_imputed =>
      let subset := generator_subset in
      match get_metric with
      | inl e => inl e
      | inr fun_metric =>
          match getitem_subset df_origin subset with
          | inl e => inl e
          | inr df_origin_subset =>
              match getitem_subset df_imputed subset with
              | inl e => inl e
              | inr df_imputed_subset =>
                  match getitem_subset_mask df_mask subset with
                  | inl e => inl e
                  | inr df_mask_subset =>
                      fun_metric df_origin_subset df_imputed_subset
                                 df_mask_subset
                  end
              end
          end
      end
  end.

(** The loop over the masks; the state is [list_errors] and the variable
    [errors], unbound before the first iteration. *)
Fixpoint splits_loop (attributes : gmap string HyperValue) (df : DataFrame)
    (masks : list Mask) (list_errors : list Errors) (errors : option Errors)
  : pyexc + (list Errors * option Errors) :=
  match masks with
  | [] => inr (list_errors, errors)
  | df_mask :: masks' =>
      match split_errors attributes df df_mask with
      | inl e => inl e
      | inr errors' =>
          splits_loop attributes df masks' (list_errors ++ [errors'])
                      (Some errors')
      end
  end.

(** [fun_obf(args)], the function returned by
    [get_objective(imputer, df, generator, metric, names_hyperparams)]:
    the attributes of the imputer after the call, and the value returned
    or the exception raised. *)
Definition fun_obf (attributes : gmap string HyperValue) (df : DataFrame)
    (names_hyperparams : list string) (args : list HyperValue)
  : gmap string HyperValue * (pyexc + Q) :=
  let attributes := setattrs attributes names_hyperparams args in
  (attributes,
   match splits_loop attributes df (generator_split df) [] None with
   | inl e => inl e
   | inr (list_errors, Some errors) => inr (np_mean errors)
   | inr (list_errors, None) => inl (UnboundLocalError "errors")
   end).

End GetObjective.

(** An environment for the examples: the masks are lists of row numbers,
    the imputer fills with zero, and the error of a split is the number of
    rows that it masks. *)
Definition env_example : Env :=
  {| HyperValue := Z;
     Mask := list nat;
     Errors := Q;
     imputer_fit_transform := fun _ df =>
       inr {| df_index := df_index df;
              df_columns :=
                map (fun c => (c.1, map (fun x : cell => Some (default 0%Q x)) c.2))
                    (df_columns df) |};
     generator_split := fun _ => [[0]; [0; 1]];
     generator_subset := ["var1"];
     setitem_mask_nan := fun df rows =>
       {| df_index := df_index df;
          df_columns :=
            map (fun c => (c.1, foldl (fun acc i => <[i := None]> acc) c.2 rows))
                (df_columns df) |};
     getitem_subset := fun df _ => inr df;
     getitem_subset_mask := fun m _ => inr m;
     get_metric := inr (fun _ _ m => inr (inject_Z (Z.of_nat (length m))));
     np_mean := fun e => e |}.

End Objective.

(** * Properties *)

(** ** Data preparation *)

Module UtilsFacts.
Import Utils.

(** *** Lookups in the results *)

Lemma lookup_map {A B : Type} (f : A -> B) (l : list A) (i : nat) :
  map f l !! i = f <$> (l !! i).
Proof.
  revert i. induction l as [|a l IH]; intros [|i]; simpl; auto.
Qed.

Lemma entry_map (f : list cell -> list cell) (X : matrix) i j r :
  X !! i = Some r ->
  entry (map f X) i j = default None (f r !! j).
Proof.
  intros Hr. unfold entry. now rewrite lookup_map, Hr.
Qed.

Lemma interp_line_lookup (r : list cell) j :
  j < length r -> interp_line r !! j = Some (interp_at r j).
Proof.
  intros Hj. unfold interp_line.
  rewrite lookup_map, lookup_seq_lt by exact Hj.
  reflexivity.
Qed.

(** *** The scans for the nearest observed entries *)

Lemma prev_obs_found (r : list cell) j i0 v0 :
  i0 < j ->
  r !! i0 = Some (Some v0) ->
  (forall k, i0 < k < j -> r !! k = Some None) ->
  prev_obs r j = Some (i0, v0).
Proof.
  induction j as [|j IH]; intros Hlt H0 Hgap; [lia|].
  simpl. destruct (decide (j = i0)) as [->|Hne].
  - now rewrite H0.
  - rewrite (Hgap j) by lia. apply IH; [lia|exact H0|].
    intros k Hk. apply Hgap. lia.
Qed.

Lemma prev_obs_none (r : list cell) j :
  (forall k, k < j -> r !! k = Some None) ->
  prev_obs r j = None.
Proof.
  induction j as [|j IH]; intros Hgap; [reflexivity|].
  simpl. rewrite (Hgap j) by lia. apply IH. intros k Hk. apply Hgap. lia.
Qed.

Lemma next_obs_from_found (r : list cell) fuel i i1 v1 :
  i <= i1 -> i1 < i + fuel ->
  r !! i1 = Some (Some v1) ->
  (forall k, i <= k < i1 -> r !! k = Some None) ->
  next_obs_from r i fuel = Some (i1, v1).
Proof.
  revert i. induction fuel as [|f IH]; intros i Hle Hlt H1 Hgap; [lia|].
  simpl. destruct (decide (i = i1)) as [->|Hne].
  - now rewrite H1.
  - rewrite (Hgap i) by lia. apply IH; [lia|lia|exact H1|].
    intros k Hk. apply Hgap. lia.
Qed.

Lemma next_obs_from_none (r : list cell) fuel i :
  (forall k, i <= k < i + fuel -> r !! k = Some None) ->
  next_obs_from r i fuel = None.
Proof.
  revert i. induction fuel as [|f IH]; intros i Hgap; [reflexivity|].
  simpl. rewrite (Hgap i) by lia. apply IH. intros k Hk. apply Hgap. lia.
Qed.

Lemma next_obs_found (r : list cell) j i1 v1 :
  j < i1 ->
  r !! i1 = Some (Some v1) ->
  (forall k, j < k < i1 -> r !! k = Some None) ->
  next_obs r j = Some (i1, v1).
Proof.
  intros Hlt H1 Hgap. unfold next_obs.
  assert (i1 < length r) by (apply lookup_lt_is_Some; eauto).
  apply next_obs_from_found; [lia|lia|exact H1|].
  intros k Hk. apply Hgap. lia.
Qed.

Lemma next_obs_none (r : list cell) j :
  (forall k, j < k < length r -> r !! k = Some None) ->
  next_obs r j = None.
Proof.
  intros Hgap. unfold next_obs. apply next_obs_from_none.
  intros k Hk. apply Hgap. lia.
Qed.

(** *** [linear_interpolation] *)

(** Claim C5, as the code has it. [linear_interpolation X] treats every row
    [r = X[i]] on its own. At a position [j] of the row: an observed entry
    is returned unchanged; a missing entry that lies between the observed
    entries [(i0, v0)] and [(i1, v1)] of the row, with nothing observed in
    between, gets the value at [j] of the segment that joins them; a missing
    entry with nothing observed before it in the row gets the first
    observed value of the row, and one with nothing observed after it gets
    the last observed value of the row. *)
Theorem linear_interpolation_along_rows (X : matrix) (i j : nat) (r : list cell) :
  X !! i = Some r ->
  j < length r ->
  (forall v, r !! j = Some (Some v) ->
     entry (linear_interpolation X) i j = Some v)
  /\ (forall i0 v0 i1 v1,
        i0 < j < i1 ->
        r !! i0 = Some (Some v0) -> r !! i1 = Some (Some v1) ->
        (forall k, i0 < k < i1 -> r !! k = Some None) ->
        entry (linear_interpolation X) i j = Some (segment i0 v0 i1 v1 j))
  /\ (forall i1 v1,
        j < i1 -> r !! i1 = Some (Some v1) ->
        (forall k, k < i1 -> r !! k = Some None) ->
        entry (linear_interpolation X) i j = Some v1)
  /\ (forall i0 v0,
        i0 < j -> r !! i0 = Some (Some v0) ->
        (forall k, i0 < k < length r -> r !! k = Some None) ->
        entry (linear_interpolation X) i j = Some v0).
Proof.
  intros Hr Hj.
  assert (He : entry (linear_interpolation X) i j = interp_at r j).
  { unfold linear_interpolation.
    rewrite (entry_map interp_line X i j r Hr), interp_line_lookup by exact Hj.
    reflexivity. }
  rewrite He. unfold interp_at. repeat split.
  - intros v Hv. now rewrite Hv.
  - intros i0 v0 i1 v1 [H0 H1] Hv0 Hv1 Hgap.
    rewrite (Hgap j) by lia.
    rewrite (prev_obs_found r j i0 v0), (next_obs_found r j i1 v1); auto.
    + intros k Hk. apply Hgap. lia.
    + intros k Hk. apply Hgap. lia.
  - intros i1 v1 H1 Hv1 Hgap.
    rewrite (Hgap j) by lia.
    rewrite prev_obs_none, (next_obs_found r j i1 v1); auto.
    + intros k Hk. apply Hgap. lia.
    + intros k Hk. apply Hgap. lia.
  - intros i0 v0 H0 Hv0 Hgap.
    rewrite (Hgap j) by lia.
    rewrite (prev_obs_found r j i0 v0), next_obs_none; auto.
    + intros k Hk. apply Hgap. lia.
    + intros k Hk. apply Hgap. lia.
Qed.

(** The entry of [X_incomplete] at row 1, column 2 is missing; its row
    neighbours are 2 (column 1) and 1 (column 3), so it becomes 3/2. *)
Lemma linear_interpolation_along_rows_witness :
  X_incomplete !! 1 = Some [Some 7; Some 2; None; Some 1; Some 1]%Q
  /\ 2 < 5
  /\ entry (linear_interpolation X_incomplete) 1 2
     = Some (segment 1 2%Q 3 1%Q 2).
Proof.
  split; [reflexivity|]. split; [lia|].
  destruct (linear_interpolation_along_rows X_incomplete 1 2
              [Some 7; Some 2; None; Some 1; Some 1]%Q eq_refl)
    as (_ & Hmid & _ & _); [simpl; lia|].
  apply Hmid; [lia|reflexivity|reflexivity|].
  intros k Hk. assert (k = 2) as -> by lia. reflexivity.
Defined.

(** [test_utils_linear_interpolation], and the interpolated input of
    [tests/imputations/rpca/test_rpca_noisy.py]. *)
Example test_utils_linear_interpolation :
  mat_eqb (linear_interpolation X_incomplete) X_exp_interpolation = true
  /\ linear_interpolation [[Some 1; Some 2]; [Some 3; None]]%Q
     = [[Some 1; Some 2]; [Some 3; Some 3]]%Q.
Proof. vm_compute. split; reflexivity. Qed.

(** Claim C5 as it is written fails at [X_incomplete]: the entry at row 2,
    column 0 is missing, its neighbours in the column are 7 (row 1) and 4
    (row 4), and interpolation down the column would give 6; the function
    returns 4, the nearest value of the row, as the repository's test
    expects. *)
Lemma linear_interpolation_not_per_column :
  ~ (forall (X : matrix) (i j i0 i1 : nat) (v0 v1 : Q),
        i0 < i < i1 ->
        column j X !! i0 = Some (Some v0) ->
        column j X !! i1 = Some (Some v1) ->
        (forall k, i0 < k < i1 -> column j X !! k = Some None) ->
        cell_eqb (entry (linear_interpolation X) i j)
                 (Some (segment i0 v0 i1 v1 i)) = true).
Proof.
  intros Hclaim.
  specialize (Hclaim X_incomplete 2 0 1 4 7%Q 4%Q).
  assert (Hgap : forall k, 1 < k < 4 -> column 0 X_incomplete !! k = Some None).
  { intros k Hk.
    assert (k = 2 \/ k = 3) as [-> | ->] by lia; reflexivity. }
  specialize (Hclaim ltac:(lia) eq_refl eq_refl Hgap).
  vm_compute in Hclaim. discriminate Hclaim.
Qed.

(** *** [impute_nans] *)

(** The sort behind [nanmedian] orders the values and keeps them all. *)
Lemma insert_sorted_perm (x : Q) (l : list Q) :
  Permutation (insert_sorted x l) (x :: l).
Proof.
  induction l as [|y l IH]; simpl; [reflexivity|].
  destruct (Qle_bool x y); [reflexivity|].
  rewrite IH. apply perm_swap.
Qed.

Lemma sort_perm (l : list Q) : Permutation (sort l) l.
Proof.
  induction l as [|x l IH]; simpl; [reflexivity|].
  unfold sort in *. simpl. rewrite insert_sorted_perm. now rewrite IH.
Qed.

Lemma insert_sorted_sorted (x : Q) (l : list Q) :
  Sorted Qle l -> Sorted Qle (insert_sorted x l).
Proof.
  induction l as [|y l IH]; intros Hs; simpl.
  - repeat constructor.
  - destruct (Qle_bool x y) eqn:Hxy.
    + constructor; [exact Hs|]. constructor. now apply Qle_bool_iff.
    + assert (Hyx : (y <= x)%Q).
      { destruct (Qlt_le_dec y x) as [Hlt|Hle]; [now apply Qlt_le_weak|].
        apply Qle_bool_iff in Hle. congruence. }
      inversion Hs as [|? ? Hs' Hhd]; subst.
      constructor; [now apply IH|].
      destruct l as [|z l]; simpl.
      * now constructor.
      * destruct (Qle_bool x z); constructor; [exact Hyx|].
        now inversion Hhd.
Qed.

Lemma sort_sorted (l : list Q) : Sorted Qle (sort l).
Proof.
  induction l as [|x l IH]; [constructor|].
  unfold sort in *. simpl. now apply insert_sorted_sorted.
Qed.

(** Claim C6, as the code has it. [impute_nans M m] returns [M] on every
    observed entry. A not-a-number entry at row [i], column [j] is replaced
    by zero with the method "zeros"; with the methods "mean" and "median",
    when column [j] of [M] has the observed values [vs], not none, it is
    replaced by the mean, respectively the median, of [vs]. *)
Theorem impute_nans_column_statistic
    (M : matrix) (m : method) (i j : nat) (r : list cell) (c : cell) :
  M !! i = Some r ->
  r !! j = Some c ->
  (forall v, c = Some v -> entry (impute_nans M m) i j = Some v)
  /\ (c = None -> m = Zeros -> entry (impute_nans M m) i j = Some 0%Q)
  /\ (forall vs,
        c = None -> observed (column j M) = vs -> vs <> [] ->
        (m = Mean -> entry (impute_nans M m) i j = Some (mean vs))
        /\ (m = Median -> entry (impute_nans M m) i j = Some (median vs))).
Proof.
  intros Hr Hc. unfold impute_nans.
  rewrite (entry_map _ M i j r Hr), list_lookup_imap, Hc. simpl.
  split; [|split].
  - intros v ->. reflexivity.
  - intros -> ->. reflexivity.
  - intros vs -> Hvs Hne. split; intros ->; simpl.
    + unfold nanmean. rewrite Hvs. now destruct vs.
    + unfold nanmedian. rewrite Hvs. now destruct vs.
Qed.

(** The entry of [X_incomplete] at row 0, column 1 is missing; the observed
    values of column 1 are 2, 4, 4, 4. *)
Lemma impute_nans_column_statistic_witness :
  X_incomplete !! 0 = Some [Some 1; None; Some 3; Some 2; None]%Q
  /\ [Some 1; None; Some 3; Some 2; None]%Q !! 1 = Some None
  /\ entry (impute_nans X_incomplete Mean) 0 1 = Some (mean [2; 4; 4; 4]%Q)
  /\ entry (impute_nans X_incomplete Median) 0 1
     = Some (median [2; 4; 4; 4]%Q).
Proof.
  split; [reflexivity|]. split; [reflexivity|]. split.
  - destruct (impute_nans_column_statistic X_incomplete Mean 0 1
                [Some 1; None; Some 3; Some 2; None]%Q None eq_refl eq_refl)
      as (_ & _ & Hstat).
    destruct (Hstat [2; 4; 4; 4]%Q eq_refl eq_refl ltac:(discriminate))
      as [Hmean _].
    exact (Hmean eq_refl).
  - destruct (impute_nans_column_statistic X_incomplete Median 0 1
                [Some 1; None; Some 3; Some 2; None]%Q None eq_refl eq_refl)
      as (_ & _ & Hstat).
    destruct (Hstat [2; 4; 4; 4]%Q eq_refl eq_refl ltac:(discriminate))
      as [_ Hmedian].
    exact (Hmedian eq_refl).
Defined.

(** [test_rpca_utils_impute_nans]. *)
Example test_rpca_utils_impute_nans :
  mat_eqb (impute_nans X_incomplete Mean) X_exp_mean = true
  /\ mat_eqb (impute_nans X_incomplete Median) X_exp_median = true
  /\ mat_eqb (impute_nans X_incomplete Zeros) X_exp_zeros = true.
Proof. vm_compute. repeat split; reflexivity. Qed.

(** Claim C6 as it is written fails at [X_incomplete] with the method
    "mean": the entry at row 0, column 1 is missing, the mean of its row
    (1, 3, 2) is 2, and the function returns 7/2, the mean of its column,
    as the repository's test expects. *)
Lemma impute_nans_not_row_mean :
  ~ (forall (M : matrix) (i j : nat) (r : list cell),
        M !! i = Some r ->
        r !! j = Some None ->
        cell_eqb (entry (impute_nans M Mean) i j) (nanmean r) = true).
Proof.
  intros Hclaim.
  specialize (Hclaim X_incomplete 0 1 _ eq_refl eq_refl).
  vm_compute in Hclaim. discriminate Hclaim.
Qed.

End UtilsFacts.

(** ** Benchmark metrics *)

Module BenchmarkFacts.
Import Benchmark.

(** Property X24. [frechet_distance df1 df2 normalized] raises the exception
    "inputs have to be of same dimensions." exactly when the shapes of [df1]
    and [df2] differ (the numpy and scipy calls that follow the shape check
    raise [ValueError] when they raise). *)
Theorem frechet_distance_shape_mismatch_iff
    {L : NumLib} (df1 df2 : DataFrame) (normalized : bool) :
  shape df1 <> shape df2
  <-> frechet_distance df1 df2 normalized
      = inl (Exception "inputs have to be of same dimensions.").
Proof.
  unfold frechet_distance.
  destruct (decide (shape df1 = shape df2)) as [Heq|Hne].
  - rewrite (bool_decide_eq_true_2 _ Heq). cbn [negb].
    split; [congruence|]. intros H. exfalso. revert H.
    destruct normalized; cbn beta iota zeta.
    all: unfold np_call.
    all: repeat (match goal with
                 | |- context [match ?r with inl _ => _ | inr _ => _ end] =>
                     destruct r
                 end; try discriminate).
  - rewrite (bool_decide_eq_false_2 _ Hne). cbn [negb].
    split; [reflexivity|auto].
Qed.

(** A 3 x 2 frame against a 2 x 2 frame. *)
Example frechet_distance_shape_mismatch {L : NumLib} (normalized : bool) :
  frechet_distance Models.df_example Models.df_empty_column normalized
  = inl (Exception "inputs have to be of same dimensions.").
Proof. reflexivity. Qed.

(** Claim C7. On two frames of equal shape with a single column,
    [frechet_distance] does not return the distance: both covariances come
    back from [np.ma.cov] as arrays of rank 0, and their product
    [sigma_true @ sigma_pred] raises [ValueError] before the branch
    [if product.ndim < 2] that was written for this case is reached. The
    exception is not the one of the shape check. *)
Theorem frechet_distance_one_column_raises
    {L : NumLib} (df1 df2 : DataFrame) :
  shape df1 = shape df2 ->
  (shape df1).2 = 1 ->
  exists msg : string,
    frechet_distance df1 df2 false = inl (ValueError msg).
Proof.
  intros Heq Hcol. unfold frechet_distance.
  rewrite (bool_decide_eq_true_2 _ Heq). cbn [negb].
  cbn beta iota zeta.
  destruct (arr_matmul_rank_0 (np_ma_cov_masked_invalid df1)
              (np_ma_cov_masked_invalid df2)
              (np_ma_cov_one_column df1 Hcol)) as [msg Hmsg].
  exists msg. rewrite Hmsg. reflexivity.
Qed.

Lemma frechet_distance_one_column_raises_witness :
  shape df_one_column = shape df_one_column_pred
  /\ (shape df_one_column).2 = 1
  /\ exists msg : string,
       @frechet_distance numpy_ranks df_one_column df_one_column_pred false
       = inl (ValueError msg).
Proof.
  split; [reflexivity|]. split; [reflexivity|].
  apply (@frechet_distance_one_column_raises numpy_ranks
           df_one_column df_one_column_pred); reflexivity.
Defined.

(** On frames of equal shape with two columns the rank-only instance runs
    to the end of the function. *)
Example frechet_distance_two_columns :
  @frechet_distance numpy_ranks Models.df_example Models.df_example false
  = inr 0.
Proof. reflexivity. Qed.

End BenchmarkFacts.

(** ** Scoring an imputer *)

Module EvaluateFacts.
Import Evaluate.

Lemma np_mean_singleton (x : Q) : Qeq (np_mean [x]) x.
Proof. unfold np_mean. simpl. field. Qed.

Lemma draw_subsets_length {RandomState : Type}
    (resample : list nat -> nat -> RandomState -> list nat * RandomState)
    (indices : list nat) (n_samples cv : nat) (random_state : RandomState) :
  length (draw_subsets RandomState resample indices n_samples cv random_state)
  = cv.
Proof.
  revert random_state. induction cv as [|cv IH]; intros rs; simpl.
  - reflexivity.
  - destruct (resample indices n_samples rs) as [subset rs'].
    simpl. now rewrite IH.
Qed.

(** The loop of [scores_imputor] stops in its first iteration, whatever
    follows the first subset. *)
Lemma scores_imputor_cons (sig : series) (first : list nat)
    (rest : list (list nat)) (imputor : series -> series)
    (func : series -> series -> scores) :
  scores_imputor {| signal := sig; nan_subsets := first :: rest |} imputor func
  = scores_imputor {| signal := sig; nan_subsets := [first] |} imputor func.
Proof. reflexivity. Qed.

(** Claim C10. An [EvaluateImputor] built with [cv >= 1] holds [cv]
    subsets, a first one and [cv - 1] others. [scores_imputor] returns in
    the first iteration of its loop: the imputer is run once, on the signal
    with the first subset set to not-a-number; the returned rmse, mae, mape
    and wmape are the scores that [func] gives for the first subset (the
    mean of a single value); and the result is the same as if the other
    subsets did not exist. *)
Theorem scores_imputor_first_subset_only
    {RandomState : Type}
    (resample : list nat -> nat -> RandomState -> list nat * RandomState)
    (floor_product : nat -> Q -> nat)
    (sig : series) (prop : Q) (cv : nat) (random_state : RandomState)
    (imputor : series -> series) (func : series -> series -> scores) :
  1 <= cv ->
  exists (first : list nat) (rest : list (list nat)) (d : scores),
    nan_subsets (init RandomState resample floor_product sig prop cv
                   random_state)
    = first :: rest
    /\ length rest = cv - 1
    /\ scores_imputor (init RandomState resample floor_product sig prop cv
                   random_state)
         imputor func
       = (Some d, [loc_set_nan sig first])
    /\ (let s := func (loc_get sig first)
                      (loc_get (imputor (loc_set_nan sig first)) first) in
        Qeq (rmse d) (rmse s) /\ Qeq (mae d) (mae s)
        /\ Qeq (mape d) (mape s) /\ Qeq (wmape d) (wmape s))
    /\ scores_imputor (init RandomState resample floor_product sig prop cv
                   random_state)
         imputor func
       = scores_imputor {| signal := sig; nan_subsets := [first] |}
           imputor func.
Proof.
  intros Hcv.
  pose proof (draw_subsets_length resample (positive_indices sig)
                (floor_product (length (positive_indices sig)) prop)
                cv random_state) as Hlen.
  unfold init.
  destruct (draw_subsets RandomState resample (positive_indices sig) _ cv
              random_state) as [|first rest] eqn:Hsub;
    simpl in Hlen; [lia|].
  exists first, rest.
  eexists. split; [reflexivity|]. split; [lia|].
  split; [reflexivity|]. split; [|reflexivity].
  simpl. repeat split; apply np_mean_singleton.
Qed.

(** Three subsets of three indices each are drawn from the example signal;
    only the first one, [0; 2; 3], is scored. *)
Lemma scores_imputor_first_subset_only_witness :
  1 <= 3
  /\ nan_subsets (init nat resample_window floor_product_exact
                    signal_example (1 # 2) 3 0)
     = [[0; 2; 3]; [2; 3; 5]; [3; 5; 6]]
  /\ snd (scores_imputor (init nat resample_window floor_product_exact
                             signal_example (1 # 2) 3 0)
            imputor_zeros func_mae)
     = [[None; Some 0; None; None; None; Some 4; Some 1; Some 6]%Q].
Proof.
  split; [lia|]. split; [reflexivity|].
  destruct (scores_imputor_first_subset_only resample_window
              floor_product_exact signal_example
              (1 # 2) 3 0 imputor_zeros func_mae ltac:(lia))
    as (first & rest & d & Hsub & _ & Hrun & _).
  rewrite Hrun. simpl.
  injection Hsub as <- _. reflexivity.
Defined.

(** With no subset at all the function falls off its end. *)
Example scores_imputor_no_subset (sig : series)
    (imputor : series -> series) (func : series -> series -> scores) :
  scores_imputor {| signal := sig; nan_subsets := [] |} imputor func
  = (None, []).
Proof. reflexivity. Qed.

End EvaluateFacts.

(** ** The imputer wrappers *)

Module ModelsFacts.
Import Models.

(** *** Computations that leave the objects of a store alone *)

(** [m] keeps every object of [h0] as it is, whatever else the store holds
    when it starts, and a value that it returns satisfies [Q]. *)
Definition keeps {A : Type} (h0 : gmap loc DataFrame) (m : py A)
    (Q : A -> Prop) : Prop :=
  forall h h' r,
    h0 ⊆ h -> m h = (h', r) ->
    h0 ⊆ h' /\ (forall a, r = inr a -> Q a).




Lemma keeps_weaken {A : Type} h0 (m : py A) (Q Q' : A -> Prop) :
  keeps h0 m Q -> (forall a, Q a -> Q' a) -> keeps h0 m Q'.
Proof.
  intros Hm Himp h h' r Hsub Hrun.
  destruct (Hm h h' r Hsub Hrun) as [Hsub' Hq]. split; auto.
Qed.





Section ImputerFacts.
Context {P : Pandas}.
Variable self : Imputer.







End ImputerFacts.

(** *** The caller's frame *)


(** [ImputerShuffle] writes into the frame that it is handed; handed the
    caller's frame directly, it would fill it in place. *)
Example shuffle_element_writes_in_place :
  (call_element (ImputerShuffle choice_first []) ∅ 1%positive
     heap_example).1 !! 1%positive
  = Some {| df_index := [0; 1; 2]%Z;
            df_columns := [("var1", [Some 1; Some 1; Some 2]);
                           ("var2", [Some 4; Some 5; Some 6])]%Q |}.
Proof. reflexivity. Qed.


(** *** The result *)

(** Claim C9. [fit_transform] raises, or returns a frame without any
    missing entry. An argument that is not a DataFrame raises [ValueError];
    when the imputation of the frame at [l] ends with a frame that still
    has a missing entry, [AssertionError] is raised with the message
    "Result of imputation contains NaN!". *)
Theorem fit_transform_result_has_no_nan {P : Pandas} (self : Imputer)
    (df : pyobj) (h : gmap loc DataFrame) :
  ((exists h' e, fit_transform self df h = (h', inl e))
   \/ (exists h' l' R,
         fit_transform self df h = (h', inr l')
         /\ h' !! l' = Some R /\ has_nan R = false))
  /\ (df = PyOther ->
      fit_transform self df h
      = (h, inl (ValueError "Input has to be a pandas.DataFrame.")))
  /\ (forall l X h1 df_imputed R,
        df = PyDataFrame l ->
        h !! l = Some X ->
        impute_frame self (hyperparams_optim self ∪ hyperparams_user self)
          l X h = (h1, inr df_imputed) ->
        h1 !! df_imputed = Some R ->
        has_nan R = true ->
        fit_transform self df h
        = (h1, inl (AssertionError "Result of imputation contains NaN!"))).
Proof.
  split; [|split].
  - destruct df as [l|]; [|left; eexists _, _; reflexivity].
    unfold fit_transform, bind, load.
    destruct (h !! l) as [X|]; [|left; eexists _, _; reflexivity].
    destruct (impute_frame self _ l X h) as [h1 [e|li]];
      [left; eexists _, _; reflexivity|].
    destruct (h1 !! li) as [R|] eqn:HR; [|left; eexists _, _; reflexivity].
    destruct (has_nan R) eqn:Hnan; [left; eexists _, _; reflexivity|].
    right. exists h1, li, R. unfold ret. auto.
  - intros ->. reflexivity.
  - intros l X h1 li R -> HX Hrun HR Hnan.
    unfold fit_transform, bind, load. now rewrite HX, Hrun, HR, Hnan.
Qed.

(** The mean imputer fills the example frame; it cannot fill a
    column without any observed value, and the missing entries left are
    reported. *)
Example fit_transform_ImputerMean :
  (fit_transform (P := pandas_by_position) (ImputerMean [])
     (PyDataFrame 1%positive) heap_example).2 = inr 3%positive
  /\ (fit_transform (P := pandas_by_position) (ImputerMean [])
        (PyDataFrame 1%positive) heap_example).1 !! 3%positive
     = Some {| df_index := [0; 1; 2]%Z;
               df_columns := [("var1", [Some 1; Some (3 # 2); Some 2]);
                              ("var2", [Some 4; Some 5; Some 6])]%Q |}
  /\ (fit_transform (P := pandas_by_position) (ImputerMean [])
        (PyDataFrame 2%positive) heap_example).2
     = inl (AssertionError "Result of imputation contains NaN!")
  /\ (fit_transform (P := pandas_by_position) (ImputerMean [])
        PyOther heap_example).2
     = inl (ValueError "Input has to be a pandas.DataFrame.").
Proof. vm_compute. repeat split; reflexivity. Qed.

End ModelsFacts.

(** ** Hyperparameter search *)

Module HyperparametersFacts.
Import Hyperparameters.

(** *** Splitting a key *)

Lemma split_cons (sep : Ascii.ascii) (s : string) :
  exists piece pieces, split sep s = piece :: pieces.
Proof.
  destruct s as [|c s]; simpl; [eauto|].
  destruct (Ascii.eqb c sep); [eauto|].
  destruct (split sep s); eauto.
Qed.

Lemma split_pieces (sep : Ascii.ascii) (s : string) :
  Forall (fun piece => contains sep piece = false) (split sep s).
Proof.
  induction s as [|c s IH]; simpl.
  - repeat constructor.
  - destruct (Ascii.eqb c sep) eqn:Hc.
    + constructor; [reflexivity|exact IH].
    + destruct (split sep s) as [|piece pieces].
      * repeat constructor. simpl. now rewrite Hc.
      * inversion IH as [|? ? Hpiece Hpieces]; subst.
        constructor; [|exact Hpieces]. simpl. now rewrite Hc.
Qed.

Lemma split_without (sep : Ascii.ascii) (s : string) :
  contains sep s = false -> split sep s = [s].
Proof.
  induction s as [|c s IH]; simpl; [reflexivity|].
  destruct (Ascii.eqb c sep); simpl; [discriminate|].
  intros Hs. now rewrite (IH Hs).
Qed.

Lemma split_with (sep : Ascii.ascii) (s : string) :
  contains sep s = true -> 2 <= length (split sep s).
Proof.
  induction s as [|c s IH]; simpl; [discriminate|].
  destruct (Ascii.eqb c sep); simpl.
  - intros _. destruct (split_cons sep s) as (p & ps & ->). simpl. lia.
  - intros Hs. specialize (IH Hs).
    destruct (split sep s) as [|p ps]; simpl in *; lia.
Qed.

Lemma split_append (sep : Ascii.ascii) (a b : string) :
  contains sep a = false ->
  split sep (a +:+ String sep b) = a :: split sep b.
Proof.
  induction a as [|c a IH]; simpl.
  - intros _. now rewrite Ascii.eqb_refl.
  - destruct (Ascii.eqb c sep); simpl; [discriminate|].
    intros Ha. now rewrite (IH Ha).
Qed.

(** *** [get_hyperparams] *)

Section GetHyperparamsFacts.
Context {V : Type}.
Implicit Types (items : list (string * V)) (hyperparams : gmap string V).

Lemma get_hyperparams_loop_keys items col hyperparams r :
  (forall k, is_Some (hyperparams !! k) -> contains "/" k = false) ->
  get_hyperparams_loop items col hyperparams = inr r ->
  forall k, is_Some (r !! k) -> contains "/" k = false.
Proof.
  revert hyperparams.
  induction items as [|[key value] items IH]; intros acc Hacc Hrun; simpl in Hrun.
  - injection Hrun as <-. exact Hacc.
  - destruct (contains "/" key) eqn:Hkey; simpl in Hrun.
    + pose proof (split_pieces "/" key) as Hpieces.
      destruct (split "/" key) as [|name_param [|col2 [|? ?]]];
        try discriminate Hrun.
      destruct (String.eqb col2 col); [|now apply (IH acc)].
      apply (IH (<[name_param := value]> acc)); [|exact Hrun].
      intros k Hk. destruct (decide (name_param = k)) as [<-|Hne].
      * now inversion Hpieces.
      * rewrite lookup_insert_ne in Hk by exact Hne. now apply Hacc.
    + apply (IH (<[key := value]> acc)); [|exact Hrun].
      intros k Hk. destruct (decide (key = k)) as [<-|Hne]; [exact Hkey|].
      rewrite lookup_insert_ne in Hk by exact Hne. now apply Hacc.
Qed.

Lemma get_hyperparams_loop_error items col hyperparams :
  (exists e, get_hyperparams_loop items col hyperparams = inl e)
  <-> Exists (fun item => 2 < length (split "/" item.1)) items.
Proof.
  revert hyperparams.
  induction items as [|[key value] items IH]; intros acc; simpl.
  - split; [intros [e He]; discriminate He|intros H; inversion H].
  - rewrite Exists_cons. simpl.
    destruct (contains "/" key) eqn:Hkey; simpl.
    + pose proof (split_with "/" key Hkey) as Hlen.
      destruct (split "/" key) as [|name_param [|col2 [|p ps]]];
        simpl in Hlen; try lia.
      * destruct (String.eqb col2 col); rewrite IH; simpl;
          (split; [auto|intros [?|?]; [lia|auto]]).
      * split; [intros _; left; simpl; lia|eauto].
    + rewrite (split_without "/" key Hkey), IH. simpl.
      split; [auto|intros [?|?]; [lia|auto]].
Qed.

Lemma get_hyperparams_loop_selected items col hyperparams r name :
  get_hyperparams_loop items col hyperparams = inr r ->
  r !! name = match selected col name items with
              | Some v => Some v
              | None => hyperparams !! name
              end.
Proof.
  revert hyperparams.
  induction items as [|[key value] items IH]; intros acc Hrun; simpl in Hrun.
  - injection Hrun as <-. reflexivity.
  - simpl. unfold param_name.
    destruct (contains "/" key) eqn:Hkey; simpl in Hrun |- *.
    + destruct (split "/" key) as [|name_param [|col2 [|? ?]]];
        try discriminate Hrun.
      destruct (String.eqb col2 col).
      * rewrite (IH _ Hrun). destruct (selected col name items); [reflexivity|].
        case_bool_decide as Hn.
        -- injection Hn as ->. now rewrite lookup_insert_eq.
        -- rewrite lookup_insert_ne; [reflexivity|congruence].
      * rewrite (IH _ Hrun). destruct (selected col name items); [reflexivity|].
        now rewrite bool_decide_eq_false_2 by discriminate.
    + rewrite (IH _ Hrun). destruct (selected col name items); [reflexivity|].
      case_bool_decide as Hn.
      * injection Hn as ->. now rewrite lookup_insert_eq.
      * rewrite lookup_insert_ne; [reflexivity|congruence].
Qed.

End GetHyperparamsFacts.

(** Property X1.
    No name in the dict that [get_hyperparams] returns contains a "/". *)
Theorem get_hyperparams_names_without_slash {V : Type}
    (hyperparams_global : list (string * V)) (col : string)
    (hyperparams : gmap string V) (name : string) :
  get_hyperparams hyperparams_global col = inr hyperparams ->
  is_Some (hyperparams !! name) ->
  contains "/" name = false.
Proof.
  intros Hrun. revert name.
  apply (get_hyperparams_loop_keys hyperparams_global col ∅ hyperparams);
    [|exact Hrun].
  intros k Hk. rewrite lookup_empty in Hk. now destruct Hk.
Qed.

Lemma get_hyperparams_names_without_slash_witness :
  get_hyperparams [("tau", 1%Z); ("lam/var1", 2%Z); ("lam/var2", 3%Z)] "var1"
  = inr (<["lam" := 2%Z]> (<["tau" := 1%Z]> ∅))
  /\ is_Some ((<["lam" := 2%Z]> (<["tau" := 1%Z]> ∅) : gmap string Z) !! "lam")
  /\ contains "/" "lam" = false.
Proof.
  split; [reflexivity|]. split; [now exists 2%Z|].
  apply (get_hyperparams_names_without_slash
           [("tau", 1%Z); ("lam/var1", 2%Z); ("lam/var2", 3%Z)] "var1"
           (<["lam" := 2%Z]> (<["tau" := 1%Z]> ∅)) "lam" eq_refl).
  now exists 2%Z.
Defined.

(** Property X2.
    [get_hyperparams] raises exactly when some key of the dict has more
    than one "/" (it splits into more than two pieces), and what it raises
    then is the [ValueError] of the unpacking. *)
Theorem get_hyperparams_raises_iff_two_slashes {V : Type}
    (hyperparams_global : list (string * V)) (col : string) :
  ((exists e, get_hyperparams hyperparams_global col = inl e)
   <-> Exists (fun item => 2 < length (split "/" item.1)) hyperparams_global)
  /\ (forall e,
        get_hyperparams hyperparams_global col = inl e ->
        e = Builtin (ValueError "too many values to unpack (expected 2)")).
Proof.
  split; [apply get_hyperparams_loop_error|].
  unfold get_hyperparams. generalize (∅ : gmap string V).
  induction hyperparams_global as [|[key value] items IH]; intros acc e; simpl.
  - discriminate.
  - destruct (negb (contains "/" key)); [apply IH|].
    destruct (split "/" key) as [|name_param [|col2 [|? ?]]];
      try (intros He; now injection He as <-).
    destruct (String.eqb col2 col); apply IH.
Qed.

(** Property X3.
    When [get_hyperparams] returns, the value that it gives to a name is
    the value of the last item of the dict that is stored under this name:
    an item whose key is the name, or the name followed by "/" and the
    column. An item for the column that comes after the item for all
    columns replaces its value, and the other way round; the items of the
    other columns count for nothing. *)
Theorem get_hyperparams_last_item_wins {V : Type}
    (hyperparams_global : list (string * V)) (col : string)
    (hyperparams : gmap string V) (name : string) :
  get_hyperparams hyperparams_global col = inr hyperparams ->
  hyperparams !! name = selected col name hyperparams_global.
Proof.
  intros Hrun.
  rewrite (get_hyperparams_loop_selected _ _ _ _ name Hrun).
  destruct (selected col name hyperparams_global); [reflexivity|].
  apply lookup_empty.
Qed.

Lemma get_hyperparams_last_item_wins_witness :
  get_hyperparams [("lam/var1", 2%Z); ("lam", 1%Z); ("lam/var2", 3%Z)] "var1"
  = inr (<["lam" := 1%Z]> ∅)
  /\ (<["lam" := 1%Z]> ∅ : gmap string Z) !! "lam"
     = selected "var1" "lam"
         [("lam/var1", 2%Z); ("lam", 1%Z); ("lam/var2", 3%Z)]
  /\ selected "var1" "lam"
       [("lam", 1%Z); ("lam/var1", 2%Z); ("lam/var2", 3%Z)] = Some 2%Z.
Proof.
  split; [reflexivity|]. split; [|reflexivity].
  exact (get_hyperparams_last_item_wins
           [("lam/var1", 2%Z); ("lam", 1%Z); ("lam/var2", 3%Z)] "var1"
           (<["lam" := 1%Z]> ∅) "lam" eq_refl).
Defined.

(** *** The search space *)

Lemma get_dimension_name (dict_bounds : pyval) (name : string) (d : Dimension) :
  get_dimension dict_bounds name = inr (Some d) -> dimension_name d = name.
Proof.
  unfold get_dimension.
  destruct (getitem dict_bounds "type") as [e|ty]; [discriminate|].
  destruct (is_str ty "Integer").
  { destruct (getitem dict_bounds "min") as [e|low]; [discriminate|].
    destruct (getitem dict_bounds "max") as [e|high]; [discriminate|].
    intros H. now injection H as <-. }
  destruct (is_str ty "Real").
  { destruct (getitem dict_bounds "min") as [e|low]; [discriminate|].
    destruct (getitem dict_bounds "max") as [e|high]; [discriminate|].
    intros H. now injection H as <-. }
  destruct (is_str ty "Categorical"); [|discriminate].
  destruct (getitem dict_bounds "categories") as [e|cats]; [discriminate|].
  intros H. now injection H as <-.
Qed.

Lemma column_dimensions_names (name_hyperparam : string)
    (items : list (string * pyval)) (ds : list (option Dimension)) :
  column_dimensions name_hyperparam items = inr ds ->
  Forall2 (fun od name => forall d, od = Some d -> dimension_name d = name)
          ds
          (map (fun b : string * pyval => name_hyperparam +:+ "/" +:+ b.1)
               items).
Proof.
  revert ds. induction items as [|[col b] items IH]; intros ds Hrun;
    simpl in Hrun.
  - injection Hrun as <-. constructor.
  - destruct (get_dimension b _) as [e|od] eqn:Hd; [discriminate|].
    destruct (column_dimensions name_hyperparam items) as [e|ds'];
      [discriminate|].
    injection Hrun as <-. simpl. constructor; [|now apply IH].
    intros d ->. exact (get_dimension_name _ _ _ Hd).
Qed.

(** Property X4.
    When [get_search_space] returns, it returns one entry for every
    hyperparameter whose dict has the key "type" and one entry for every
    column of the dict of every other hyperparameter, in the order of the
    dicts; an entry that is a dimension is named after the hyperparameter,
    respectively [hyperparameter/column]. *)
Theorem get_search_space_names
    (search_params : list (string * list (string * pyval)))
    (list_spaces : list (option Dimension)) :
  get_search_space search_params = inr list_spaces ->
  Forall2 (fun od name => forall d, od = Some d -> dimension_name d = name)
          list_spaces (space_names search_params).
Proof.
  revert list_spaces.
  induction search_params as [|[name value] sp IH]; intros ds Hrun;
    simpl in Hrun.
  - injection Hrun as <-. constructor.
  - unfold space_names. simpl. fold (space_names sp).
    unfold dict_mem in Hrun.
    destruct (existsb (fun e => String.eqb e.1 "type") value).
    + destruct (get_dimension (PDict value) name) as [e|od] eqn:Hd;
        [discriminate|].
      destruct (get_search_space sp) as [e|ds']; [discriminate|].
      injection Hrun as <-. simpl. constructor; [|now apply IH].
      intros d ->. exact (get_dimension_name _ _ _ Hd).
    + destruct (column_dimensions name value) as [e|ds1] eqn:Hc;
        [discriminate|].
      destruct (get_search_space sp) as [e|ds']; [discriminate|].
      injection Hrun as <-.
      apply Forall2_app; [now apply column_dimensions_names|now apply IH].
Qed.

Lemma get_search_space_names_witness :
  get_search_space
    [("tau", [("type", PStr "Real"); ("min", PNum 0); ("max", PNum 1)]);
     ("lam", [("var1", PDict [("type", PStr "Integer");
                              ("min", PNum 1); ("max", PNum 5)]);
              ("var2", PDict [("type", PStr "Unknown")])])]
  = inr [Some (Real (PNum 0) (PNum 1) "tau");
         Some (Integer (PNum 1) (PNum 5) "lam/var1");
         None]
  /\ space_names
       [("tau", [("type", PStr "Real"); ("min", PNum 0); ("max", PNum 1)]);
        ("lam", [("var1", PDict [("type", PStr "Integer");
                                 ("min", PNum 1); ("max", PNum 5)]);
                 ("var2", PDict [("type", PStr "Unknown")])])]
     = ["tau"; "lam/var1"; "lam/var2"]
  /\ Forall2 (fun od name => forall d, od = Some d -> dimension_name d = name)
       [Some (Real (PNum 0) (PNum 1) "tau");
        Some (Integer (PNum 1) (PNum 5) "lam/var1");
        None]
       ["tau"; "lam/var1"; "lam/var2"].
Proof.
  split; [reflexivity|]. split; [reflexivity|].
  exact (get_search_space_names
           [("tau", [("type", PStr "Real"); ("min", PNum 0); ("max", PNum 1)]);
            ("lam", [("var1", PDict [("type", PStr "Integer");
                                     ("min", PNum 1); ("max", PNum 5)]);
                     ("var2", PDict [("type", PStr "Unknown")])])]
           _ eq_refl).
Defined.

(** Property X5.
    The name [hyperparameter/column] that [get_search_space] gives to the
    dimension of a column is read back by [get_hyperparams]: when neither
    the hyperparameter nor the column contains a "/", a value found under
    this name is handed to that column under the name of the
    hyperparameter, and to no other column. *)
Theorem search_space_name_round_trip {V : Type}
    (name_hyperparam col col' : string) (value : V) :
  contains "/" name_hyperparam = false ->
  contains "/" col = false ->
  get_hyperparams [(name_hyperparam +:+ "/" +:+ col, value)] col'
  = inr (if String.eqb col col'
         then <[name_hyperparam := value]> ∅ else ∅).
Proof.
  intros Hname Hcol. unfold get_hyperparams.
  change ("/" +:+ col) with (String "/" col).
  assert (Hin : contains "/" (name_hyperparam +:+ String "/" col) = true).
  { clear. induction name_hyperparam as [|c s IH]; simpl.
    - reflexivity.
    - rewrite IH. apply orb_true_r. }
  cbn [get_hyperparams_loop]. rewrite Hin. cbn [negb].
  rewrite (split_append "/" name_hyperparam col Hname).
  rewrite (split_without "/" col Hcol).
  now destruct (String.eqb col col').
Qed.

Lemma search_space_name_round_trip_witness :
  contains "/" "lam" = false
  /\ contains "/" "var1" = false
  /\ get_hyperparams [("lam" +:+ "/" +:+ "var1", 2%Z)] "var1"
     = inr (<["lam" := 2%Z]> ∅)
  /\ get_hyperparams [("lam" +:+ "/" +:+ "var1", 2%Z)] "var2" = inr ∅.
Proof.
  split; [reflexivity|]. split; [reflexivity|]. split.
  - exact (search_space_name_round_trip "lam" "var1" "var1" 2%Z
             eq_refl eq_refl).
  - exact (search_space_name_round_trip "lam" "var1" "var2" 2%Z
             eq_refl eq_refl).
Defined.

End HyperparametersFacts.

(** ** [ImputerLOCF] and [ImputerNOCB] *)

Module ImputersFacts.
Import Models Imputers.

Lemma first_obs_cons (c : cell) (values : list cell) :
  first_obs (c :: values) = orelse c (first_obs values).
Proof. now destruct c. Qed.

Lemma last_obs_cons (c : cell) (values : list cell) :
  last_obs (c :: values) = orelse (last_obs values) c.
Proof.
  unfold last_obs. destruct c as [v|]; simpl; [|now destruct (last _)].
  change (omap id values) with (Utils.observed values).
  destruct (Utils.observed values) as [|w ws] eqn:Hobs; [reflexivity|].
  rewrite last_cons. now destruct (last (w :: ws)).
Qed.

Lemma last_obs_None_first_obs (values : list cell) :
  last_obs values = None -> first_obs values = None.
Proof.
  unfold last_obs, first_obs.
  destruct (Utils.observed values) as [|w ws]; [reflexivity|].
  rewrite last_cons. now destruct (last ws).
Qed.

Lemma first_obs_app (l1 l2 : list cell) :
  first_obs (l1 ++ l2) = orelse (first_obs l1) (first_obs l2).
Proof.
  induction l1 as [|c l1 IH]; [reflexivity|].
  simpl. rewrite !first_obs_cons, IH. now destruct c.
Qed.

Lemma head_bfill (values : list cell) :
  default None (head (bfill values)) = first_obs values.
Proof.
  induction values as [|c values IH]; [reflexivity|].
  simpl. now rewrite IH, first_obs_cons.
Qed.

Lemma shift1_cons (c x : cell) (values : list cell) :
  take (length (x :: values)) (c :: x :: values)
  = c :: take (length values) (x :: values).
Proof. reflexivity. Qed.

(** The shifted, forward-filled and backward-filled column, for any value
    [c] shifted in and any value [a] carried so far. *)
Lemma locf_lookup (values : list cell) (a c : cell) (i : nat) :
  i < length values ->
  bfill (ffill_from a (take (length values) (c :: values))) !! i
  = Some (orelse (orelse (last_obs (take i values)) (orelse c a))
                 (first_obs (take (length values - 1) values))).
Proof.
  revert a c i. induction values as [|x xs IH]; intros a c i Hi;
    [simpl in Hi; lia|].
  rewrite shift1_cons. cbn [ffill_from bfill].
  set (b := orelse c a).
  destruct i as [|i].
  - rewrite lookup_cons. f_equal.
    rewrite head_bfill.
    destruct xs as [|y ys].
    + simpl. unfold last_obs, first_obs. simpl. now destruct b.
    + assert (Hhd : first_obs (ffill_from b (take (length (y :: ys)) (x :: y :: ys)))
                    = orelse (orelse x b)
                             (first_obs (take (length (y :: ys) - 1) (y :: ys)))).
      { pose proof (IH b x 0 ltac:(simpl; lia)) as H0.
        rewrite <- head_bfill.
        destruct (bfill (ffill_from b (take (length (y :: ys)) (x :: y :: ys))))
          as [|r rs]; [discriminate H0|].
        rewrite lookup_cons in H0. injection H0 as ->.
        simpl. unfold last_obs. simpl. reflexivity. }
      rewrite Hhd.
      replace (take (length (x :: y :: ys) - 1) (x :: y :: ys))
        with (x :: take (length (y :: ys) - 1) (y :: ys))
        by (simpl; now rewrite Nat.sub_0_r).
      rewrite first_obs_cons.
      unfold last_obs. simpl.
      destruct b, x; reflexivity.
  - rewrite lookup_cons.
    simpl in Hi.
    rewrite (IH b x i ltac:(lia)). f_equal.
    destruct xs as [|y ys]; [simpl in Hi; lia|].
    replace (take (length (x :: y :: ys) - 1) (x :: y :: ys))
      with (x :: take (length (y :: ys) - 1) (y :: ys))
      by (simpl; now rewrite Nat.sub_0_r).
    rewrite first_obs_cons.
    change (take (S i) (x :: y :: ys)) with (x :: take i (y :: ys)).
    rewrite last_obs_cons.
    destruct (last_obs (take i (y :: ys))), x, b; reflexivity.
Qed.

Lemma first_obs_take_drop (values : list cell) (i : nat) :
  first_obs values
  = orelse (first_obs (take i values)) (first_obs (drop i values)).
Proof. now rewrite <- first_obs_app, take_drop. Qed.

(** The backward-filled and forward-filled list, for any value [a]
    carried so far. *)
Lemma nocb_lookup (values : list cell) (a : cell) (i : nat) :
  i < length values ->
  ffill_from a (bfill values) !! i
  = Some (orelse (first_obs (drop i values))
                 (orelse (last_obs (take i values)) a)).
Proof.
  revert a i. induction values as [|c l IH]; intros a i Hi;
    [simpl in Hi; lia|].
  cbn [bfill ffill_from]. rewrite head_bfill, lookup_cons.
  destruct i as [|i].
  - simpl. rewrite first_obs_cons. unfold last_obs. simpl. reflexivity.
  - simpl in Hi. rewrite (IH _ i ltac:(lia)). f_equal.
    change (drop (S i) (c :: l)) with (drop i l).
    change (take (S i) (c :: l)) with (c :: take i l).
    rewrite last_obs_cons.
    destruct (first_obs (drop i l)) as [d|] eqn:Hd; [reflexivity|].
    destruct (last_obs (take i l)) as [w|] eqn:Hl; [reflexivity|].
    rewrite (first_obs_take_drop l i), Hd.
    rewrite (last_obs_None_first_obs _ Hl). simpl.
    now destruct c.
Qed.

Lemma shift1_nonempty (values : list cell) :
  values <> [] ->
  shift1 values = None :: take (length values - 1) values.
Proof.
  unfold shift1. destruct values as [|x xs]; [congruence|].
  intros _. simpl. now rewrite Nat.sub_0_r.
Qed.

Lemma locf_column_lookup (values : list cell) (i : nat) :
  i < length values ->
  locf_column values !! i
  = Some (orelse (last_obs (take i values))
                 (first_obs (take (length values - 1) values))).
Proof.
  intros Hi. unfold locf_column, ffill, shift1.
  rewrite (locf_lookup values None None i Hi). f_equal.
  now destruct (last_obs (take i values)).
Qed.

Lemma nocb_column_lookup (values : list cell) (i : nat) :
  i < length values ->
  nocb_column values !! i
  = Some (orelse (first_obs (drop (pred i)
                               (take (length values - 1) values)))
                 (last_obs (take (pred i)
                              (take (length values - 1) values)))).
Proof.
  intros Hi. unfold nocb_column, ffill.
  assert (Hne : values <> []) by (destruct values; [simpl in Hi; lia|congruence]).
  rewrite (shift1_nonempty values Hne).
  set (rl := take (length values - 1) values).
  assert (Hlen : length (None :: rl) = length values).
  { unfold rl. simpl. rewrite length_take.
    destruct values; [congruence|]. simpl. lia. }
  rewrite nocb_lookup by (rewrite Hlen; exact Hi). f_equal.
  destruct i as [|i]; cbn [pred drop take].
  - rewrite first_obs_cons. rewrite take_0, drop_0. cbn [orelse].
    unfold last_obs. cbn. now destruct (first_obs rl).
  - rewrite last_obs_cons.
    now destruct (first_obs (drop i rl)), (last_obs (take i rl)).
Qed.

Lemma map_columns_lookup (f : list cell -> list cell) (df : DataFrame)
    (k : nat) (name : string) (values : list cell) :
  df_columns df !! k = Some (name, values) ->
  df_columns (map_columns f df) !! k = Some (name, f values).
Proof.
  intros Hk. unfold map_columns. simpl.
  now rewrite UtilsFacts.lookup_map, Hk.
Qed.

(** Property X6.
    [ImputerLOCF.fit_transform_element] leaves the frame as it is and
    proposes, for row [i] of a column, the last value observed strictly
    before row [i]; when nothing is observed before row [i], it proposes
    the first value observed in the column without its last row, and
    not-a-number when there is none. *)
Theorem locf_element_value (hyperparams : gmap string hyperparam)
    (df : DataFrame) (k i : nat) (name : string) (values : list cell) :
  df_columns df !! k = Some (name, values) ->
  i < length values ->
  exists (out : DataFrame) (proposed : list cell),
    locf_element hyperparams df = (df, inr (FillFrame out))
    /\ df_index out = df_index df
    /\ df_columns out !! k = Some (name, proposed)
    /\ proposed !! i
       = Some (orelse (last_obs (take i values))
                      (first_obs (take (length values - 1) values))).
Proof.
  intros Hk Hi.
  exists (map_columns locf_column df), (locf_column values).
  split; [reflexivity|]. split; [reflexivity|].
  split; [now apply map_columns_lookup|].
  now apply locf_column_lookup.
Qed.

Lemma locf_element_value_witness :
  df_columns
    {| df_index := [0; 1; 2; 3]%Z;
       df_columns := [("var1", [None; Some 1; None; Some 2]%Q)] |} !! 0
  = Some ("var1", [None; Some 1; None; Some 2]%Q)
  /\ 2 < length [None; Some 1; None; Some 2]%Q
  /\ exists (out : DataFrame) (proposed : list cell),
       locf_element ∅
         {| df_index := [0; 1; 2; 3]%Z;
            df_columns := [("var1", [None; Some 1; None; Some 2]%Q)] |}
       = ({| df_index := [0; 1; 2; 3]%Z;
             df_columns := [("var1", [None; Some 1; None; Some 2]%Q)] |},
          inr (FillFrame out))
       /\ df_index out = [0; 1; 2; 3]%Z
       /\ df_columns out !! 0 = Some ("var1", proposed)
       /\ proposed !! 2 = Some (Some 1%Q).
Proof.
  split; [reflexivity|]. split; [simpl; lia|].
  exact (locf_element_value ∅
           {| df_index := [0; 1; 2; 3]%Z;
              df_columns := [("var1", [None; Some 1; None; Some 2]%Q)] |}
           0 2 "var1" [None; Some 1; None; Some 2]%Q eq_refl
           ltac:(simpl; lia)).
Defined.

(** Property X7.
    [ImputerNOCB.fit_transform_element] leaves the frame as it is and
    proposes, for row [i] of a column, the first value observed from row
    [i - 1] on in the column without its last row (from row 0 on for
    [i = 0]); when there is none, it proposes the last value observed
    before row [i - 1], and not-a-number when there is none either. *)
Theorem nocb_element_value (hyperparams : gmap string hyperparam)
    (df : DataFrame) (k i : nat) (name : string) (values : list cell) :
  df_columns df !! k = Some (name, values) ->
  i < length values ->
  exists (out : DataFrame) (proposed : list cell),
    nocb_element hyperparams df = (df, inr (FillFrame out))
    /\ df_index out = df_index df
    /\ df_columns out !! k = Some (name, proposed)
    /\ proposed !! i
       = Some (orelse (first_obs (drop (pred i)
                                    (take (length values - 1) values)))
                      (last_obs (take (pred i)
                                   (take (length values - 1) values)))).
Proof.
  intros Hk Hi.
  exists (map_columns nocb_column df), (nocb_column values).
  split; [reflexivity|]. split; [reflexivity|].
  split; [now apply map_columns_lookup|].
  now apply nocb_column_lookup.
Qed.

Lemma nocb_element_value_witness :
  df_columns
    {| df_index := [0; 1; 2; 3]%Z;
       df_columns := [("var1", [Some 1; None; None; Some 2]%Q)] |} !! 0
  = Some ("var1", [Some 1; None; None; Some 2]%Q)
  /\ 1 < length [Some 1; None; None; Some 2]%Q
  /\ exists (out : DataFrame) (proposed : list cell),
       nocb_element ∅
         {| df_index := [0; 1; 2; 3]%Z;
            df_columns := [("var1", [Some 1; None; None; Some 2]%Q)] |}
       = ({| df_index := [0; 1; 2; 3]%Z;
             df_columns := [("var1", [Some 1; None; None; Some 2]%Q)] |},
          inr (FillFrame out))
       /\ df_index out = [0; 1; 2; 3]%Z
       /\ df_columns out !! 0 = Some ("var1", proposed)
       /\ proposed !! 1 = Some (Some 1%Q).
Proof.
  split; [reflexivity|]. split; [simpl; lia|].
  exact (nocb_element_value ∅
           {| df_index := [0; 1; 2; 3]%Z;
              df_columns := [("var1", [Some 1; None; None; Some 2]%Q)] |}
           0 1 "var1" [Some 1; None; None; Some 2]%Q eq_refl
           ltac:(simpl; lia)).
Defined.

Lemma last_obs_snoc (values : list cell) (v : Q) :
  last_obs (values ++ [Some v]) = Some v.
Proof.
  induction values as [|c l IH]; [reflexivity|].
  simpl. now rewrite last_obs_cons, IH.
Qed.

(** Property X8.
    After an observed row, [ImputerNOCB] proposes what [ImputerLOCF]
    proposes: when row [i] of a column holds the value [v] and is not the
    last row, both propose [v], the previous observation, for row
    [i + 1]. *)
Theorem nocb_carries_previous_row (values : list cell) (i : nat) (v : Q) :
  values !! i = Some (Some v) ->
  S i < length values ->
  locf_column values !! S i = Some (Some v)
  /\ nocb_column values !! S i = Some (Some v).
Proof.
  intros Hv Hi. split.
  - rewrite locf_column_lookup by exact Hi.
    rewrite (take_S_r values i (Some v) Hv), last_obs_snoc. reflexivity.
  - rewrite nocb_column_lookup by exact Hi. cbn [pred].
    assert (Hrl : take (length values - 1) values !! i = Some (Some v)).
    { rewrite lookup_take_lt by lia. exact Hv. }
    rewrite (drop_S _ _ _ Hrl), first_obs_cons. reflexivity.
Qed.

Lemma nocb_carries_previous_row_witness :
  [Some 1; None; Some 2; None]%Q !! 0 = Some (Some 1%Q)
  /\ 1 < length [Some 1; None; Some 2; None]%Q
  /\ locf_column [Some 1; None; Some 2; None]%Q !! 1 = Some (Some 1%Q)
  /\ nocb_column [Some 1; None; Some 2; None]%Q !! 1 = Some (Some 1%Q).
Proof.
  split; [reflexivity|]. split; [simpl; lia|].
  exact (nocb_carries_previous_row [Some 1; None; Some 2; None]%Q 0 1%Q
           eq_refl ltac:(simpl; lia)).
Defined.

Lemma shift1_snoc (values : list cell) (c : cell) :
  shift1 (values ++ [c]) = None :: values.
Proof.
  unfold shift1. rewrite length_app. simpl.
  replace (length values + 1) with (S (length values)) by lia.
  simpl. f_equal. now rewrite take_app_length.
Qed.

(** Property X9.
    The value in the last row of a column is never used by [ImputerLOCF]
    nor by [ImputerNOCB]: what they propose does not depend on it. A
    column observed in its last row only gets no value at all. *)
Theorem last_row_is_never_used (values : list cell) (c c' : cell) :
  locf_column (values ++ [c]) = locf_column (values ++ [c'])
  /\ nocb_column (values ++ [c]) = nocb_column (values ++ [c'])
  /\ (first_obs values = None ->
      locf_column (values ++ [c]) = replicate (S (length values)) None
      /\ nocb_column (values ++ [c]) = replicate (S (length values)) None).
Proof.
  unfold locf_column, nocb_column. rewrite !shift1_snoc.
  split; [reflexivity|]. split; [reflexivity|].
  intros Hnone.
  assert (Hall : values = replicate (length values) None).
  { clear c c'. induction values as [|x l IH]; [reflexivity|].
    rewrite first_obs_cons in Hnone. destruct x; [discriminate|].
    simpl in Hnone |- *. now rewrite <- (IH Hnone). }
  rewrite Hall, length_replicate. clear.
  assert (Hf : forall n, ffill_from None (replicate n None) = replicate n None).
  { induction n as [|n IH]; simpl; [reflexivity|]. now rewrite IH. }
  assert (Hb : forall n, bfill (replicate n None) = replicate n None).
  { induction n as [|n IH]; simpl; [reflexivity|]. rewrite IH.
    now destruct n. }
  unfold ffill.
  change (None :: replicate (length values) None)
    with (replicate (S (length values)) (@None Q)).
  now rewrite !Hf, !Hb, !Hf.
Qed.

End ImputersFacts.

(** ** [ImputerShuffle] *)

Module ShuffleFacts.
Import Models.

Lemma fill_missing_length (values : list cell) (samples : list Q) :
  length (fill_missing values samples) = length values.
Proof.
  revert samples. induction values as [|[v|] values IH]; intros samples;
    simpl; [reflexivity|now rewrite IH|].
  destruct samples; simpl; now rewrite IH.
Qed.

Lemma fill_missing_observed (values : list cell) (samples : list Q)
    (i : nat) (v : Q) :
  values !! i = Some (Some v) ->
  fill_missing values samples !! i = Some (Some v).
Proof.
  revert samples i. induction values as [|[w|] values IH];
    intros samples i Hi; [discriminate Hi| |].
  - destruct i as [|i]; simpl in *; [exact Hi|now apply IH].
  - destruct i as [|i]; [discriminate Hi|].
    destruct samples; simpl in *; now apply IH.
Qed.

Lemma fill_missing_missing (values : list cell) (samples : list Q) (i : nat) :
  length (List.filter isnan values) <= length samples ->
  values !! i = Some None ->
  exists x, x ∈ samples /\ fill_missing values samples !! i = Some (Some x).
Proof.
  revert samples i. induction values as [|[w|] values IH];
    intros samples i Hn Hi; [discriminate Hi| |].
  - destruct i as [|i]; [discriminate Hi|].
    simpl in *. now apply IH.
  - destruct samples as [|x samples]; [simpl in Hn; lia|].
    destruct i as [|i]; simpl in *.
    + exists x. split; [left|reflexivity].
    + destruct (IH samples i ltac:(lia) Hi) as (y & Hy & Hfill).
      exists y. split; [now right|exact Hfill].
Qed.

Lemma observed_all_nan (values : list cell) :
  Utils.observed values <> [] -> forallb isnan values = false.
Proof.
  induction values as [|[v|] values IH]; simpl; [congruence|reflexivity|].
  exact IH.
Qed.

(** Property X10.
    [ImputerShuffle.fit_transform_element] on the one-column frame that
    the column-wise [fit_transform] hands to it, when the column has an
    observed value and the draw returns as many values as asked for, all
    taken from the values it was given: the proposed column keeps every
    observed entry and replaces every missing entry by one of the observed
    values of the column. The frame that was handed in has been filled in
    the same way. *)
Theorem shuffle_element_draws_observed_values
    (choice : list Q -> nat -> list Q)
    (hyperparams : gmap string hyperparam)
    (index : list Z) (name : string) (values : list cell) :
  Utils.observed values <> [] ->
  length (choice (Utils.observed values) (length (List.filter isnan values)))
  = length (List.filter isnan values) ->
  Forall (fun x => x ∈ Utils.observed values)
         (choice (Utils.observed values) (length (List.filter isnan values))) ->
  exists filled : list cell,
    shuffle_element choice hyperparams
      {| df_index := index; df_columns := [(name, values)] |}
    = ({| df_index := index; df_columns := [(name, filled)] |},
       inr (FillFrame {| df_index := index;
                         df_columns := [(name, filled)] |}))
    /\ length filled = length values
    /\ (forall i v, values !! i = Some (Some v) -> filled !! i = Some (Some v))
    /\ (forall i, values !! i = Some None ->
          exists x, x ∈ Utils.observed values /\ filled !! i = Some (Some x)).
Proof.
  intros Hobs Hlen Hdrawn.
  set (n := length (List.filter isnan values)) in *.
  exists (fill_missing values (choice (Utils.observed values) n)).
  split; [|split; [apply fill_missing_length|split]].
  - unfold shuffle_element. simpl.
    rewrite (observed_all_nan values Hobs). simpl.
    rewrite app_nil_r. reflexivity.
  - intros i v Hv. now apply fill_missing_observed.
  - intros i Hi.
    destruct (fill_missing_missing values (choice (Utils.observed values) n) i
                ltac:(fold n; lia) Hi) as (x & Hx & Hfill).
    exists x. split; [|exact Hfill].
    rewrite Forall_forall in Hdrawn. now apply Hdrawn.
Qed.

Lemma shuffle_element_draws_observed_values_witness :
  Utils.observed [Some 1; None; Some 2]%Q <> []
  /\ length (choice_first (Utils.observed [Some 1; None; Some 2]%Q)
               (length (List.filter isnan [Some 1; None; Some 2]%Q)))
     = length (List.filter isnan [Some 1; None; Some 2]%Q)
  /\ exists filled : list cell,
       shuffle_element choice_first ∅
         {| df_index := [0; 1; 2]%Z;
            df_columns := [("var1", [Some 1; None; Some 2]%Q)] |}
       = ({| df_index := [0; 1; 2]%Z; df_columns := [("var1", filled)] |},
          inr (FillFrame {| df_index := [0; 1; 2]%Z;
                            df_columns := [("var1", filled)] |}))
       /\ length filled = 3
       /\ (forall i v, [Some 1; None; Some 2]%Q !! i = Some (Some v) ->
             filled !! i = Some (Some v))
       /\ (forall i, [Some 1; None; Some 2]%Q !! i = Some None ->
             exists x, x ∈ [1; 2]%Q /\ filled !! i = Some (Some x)).
Proof.
  split; [discriminate|]. split; [reflexivity|].
  apply (shuffle_element_draws_observed_values choice_first ∅
           [0; 1; 2]%Z "var1" [Some 1; None; Some 2]%Q).
  - discriminate.
  - reflexivity.
  - repeat constructor.
Defined.

End ShuffleFacts.

(** ** Control flow of [Imputer.fit_transform] *)

Module ImputerFlowFacts.
Import Models Imputers.

Lemma cols_with_nans_complete (X : DataFrame) :
  has_nan X = false -> cols_with_nans X = [].
Proof.
  unfold has_nan, cols_with_nans.
  induction (df_columns X) as [|c cs IH]; simpl; [reflexivity|].
  destruct (existsb isnan c.2); simpl; [discriminate|]. intros H.
  now rewrite (IH H).
Qed.

Lemma load_alloc (h : gmap loc DataFrame) (X : DataFrame) :
  load (fresh (dom h)) (<[fresh (dom h) := X]> h)
  = (<[fresh (dom h) := X]> h, inr X).
Proof. unfold load. now rewrite lookup_insert_eq. Qed.

(** Property X11.
    A column-wise imputer that is given a frame without any missing entry
    returns a new frame with the same content; [fit_transform_element] is
    not called, whatever it is. *)
Theorem fit_transform_complete_frame {P : Pandas} (self : Imputer)
    (l : loc) (X : DataFrame) (h : gmap loc DataFrame) :
  columnwise self = true ->
  h !! l = Some X ->
  has_nan X = false ->
  fit_transform self (PyDataFrame l) h
  = (<[fresh (dom h) := X]> h, inr (fresh (dom h))).
Proof.
  intros Hcw HX Hnan.
  unfold fit_transform, impute_frame, bind, load at 1.
  rewrite HX, Hcw, (cols_with_nans_complete X Hnan). simpl.
  unfold alloc, ret. rewrite load_alloc. now rewrite Hnan.
Qed.

Lemma fit_transform_complete_frame_witness :
  columnwise (ImputerShuffle choice_first []) = true
  /\ heap_complete !! 1%positive = Some df_complete
  /\ has_nan df_complete = false
  /\ fit_transform (P := pandas_by_position) (ImputerShuffle choice_first [])
       (PyDataFrame 1%positive) heap_complete
     = (<[fresh (dom heap_complete) := df_complete]> heap_complete,
        inr (fresh (dom heap_complete))).
Proof.
  split; [reflexivity|]. split; [reflexivity|]. split; [reflexivity|].
  exact (fit_transform_complete_frame (P := pandas_by_position)
           (ImputerShuffle choice_first []) 1%positive df_complete
           heap_complete eq_refl eq_refl eq_refl).
Defined.

(** Property X12.
    In a column-wise imputer, a hyperparameter given as a dict per column
    must have a key for the first column with a missing entry: otherwise
    [fit_transform] raises [KeyError] for that column, after it has copied
    the frame and before [fit_transform_element] is called. A
    hyperparameter found by the search ([hyperparams_optim]) takes the
    place of the user's one of the same name. *)
Theorem fit_transform_missing_column_key {P : Pandas} (self : Imputer)
    (l : loc) (X : DataFrame) (h : gmap loc DataFrame)
    (col : string) (cols : list string)
    (name : string) (d : gmap string HyperValue) :
  columnwise self = true ->
  h !! l = Some X ->
  cols_with_nans X = col :: cols ->
  (hyperparams_optim self ∪ hyperparams_user self) !! name = Some (HDict d) ->
  d !! col = None ->
  fit_transform self (PyDataFrame l) h
  = (<[fresh (dom h) := X]> h, inl (KeyError col)).
Proof.
  intros Hcw HX Hcols Hname Hcol.
  unfold fit_transform, impute_frame, bind, load at 1.
  rewrite HX, Hcw, Hcols. simpl.
  unfold element_hyperparams.
  rewrite bool_decide_eq_false_2; [reflexivity|].
  intros Hall. specialize (Hall name (HDict d) Hname).
  simpl in Hall. rewrite Hcol in Hall. now destruct Hall.
Qed.

Lemma fit_transform_missing_column_key_witness :
  columnwise imputer_per_column = true
  /\ heap_example !! 1%positive = Some df_example
  /\ cols_with_nans df_example = ["var1"]
  /\ fit_transform (P := pandas_by_position) imputer_per_column
       (PyDataFrame 1%positive) heap_example
     = (<[fresh (dom heap_example) := df_example]> heap_example,
        inl (KeyError "var1")).
Proof.
  split; [reflexivity|]. split; [reflexivity|]. split; [reflexivity|].
  exact (fit_transform_missing_column_key (P := pandas_by_position)
           imputer_per_column 1%positive df_example heap_example "var1" []
           "n_neighbors" (<["var2" := HInt 3]> ∅)
           eq_refl eq_refl eq_refl eq_refl eq_refl).
Defined.

(** Property X13.
    The loop that fills [self.hyperparams_element] for a column: it
    raises [KeyError] exactly when some hyperparameter is a dict without
    the column; otherwise every hyperparameter keeps its name, a plain
    value is kept and a dict is replaced by its value for the column. *)
Theorem element_hyperparams_resolution (col : string)
    (hyperparams : gmap string hyperparam) :
  (element_hyperparams col hyperparams = inl (KeyError col)
   <-> exists name d, hyperparams !! name = Some (HDict d) /\ d !! col = None)
  /\ (forall e, element_hyperparams col hyperparams = inl e -> e = KeyError col)
  /\ (forall hyperparams_element,
        element_hyperparams col hyperparams = inr hyperparams_element ->
        forall name,
          hyperparams_element !! name
          = match hyperparams !! name with
            | Some (HPlain v) => Some (HPlain v)
            | Some (HDict d) => HPlain <$> d !! col
            | None => None
            end).
Proof.
  unfold element_hyperparams.
  case_bool_decide as Hall.
  - split; [split; [discriminate|]|split; [discriminate|]].
    + intros (name & d & Hname & Hcol).
      specialize (Hall name (HDict d) Hname). simpl in Hall.
      rewrite Hcol in Hall. now destruct Hall.
    + intros r Hr name. injection Hr as <-.
      rewrite lookup_omap.
      destruct (hyperparams !! name) as [[v|d]|]; reflexivity.
  - split; [split; [intros _|reflexivity]|split; [congruence|discriminate]].
    apply map_not_Forall in Hall; [|apply _].
    destruct Hall as (name & v & Hname & Hres).
    destruct v as [v|d]; simpl in Hres.
    + exfalso. apply Hres. eauto.
    + exists name, d. split; [exact Hname|].
      destruct (d !! col); [exfalso; apply Hres; simpl; eauto|reflexivity].
Qed.

End ImputerFlowFacts.

(** ** [ImputeColumnWise.fit_transform] *)

Module ColumnWiseFacts.
Import ColumnWise.

Lemma has_nan_fillna_zero (imputed : DataFrame) :
  has_nan (fillna_zero imputed) = false.
Proof.
  unfold has_nan, fillna_zero. simpl.
  induction (df_columns imputed) as [|c cs IH]; simpl; [reflexivity|].
  rewrite IH, orb_false_r.
  induction c.2 as [|x xs IHx]; simpl; [reflexivity|exact IHx].
Qed.

Lemma setitem_values_labels (imputed : DataFrame) (col : string)
    (values : list cell) :
  map fst (df_columns (setitem_values imputed col values))
  = map fst (df_columns imputed).
Proof.
  unfold setitem_values. simpl.
  induction (df_columns imputed) as [|c cs IH]; simpl; [reflexivity|].
  rewrite IH. now destruct (String.eqb c.1 col).
Qed.

Lemma impute_each_shape
    (fit_transform_col : list cell -> string -> pyerror + list cell)
    (df : DataFrame) (cols : list string) (imputed R : DataFrame) :
  impute_each fit_transform_col df cols imputed = inr R ->
  df_index R = df_index imputed
  /\ map fst (df_columns R) = map fst (df_columns imputed).
Proof.
  revert imputed. induction cols as [|col cols IH]; intros imputed Hrun;
    simpl in Hrun.
  - injection Hrun as <-. auto.
  - destruct (getitem_col df col) as [signal|]; [|discriminate].
    destruct (fit_transform_col signal col) as [e|values]; [discriminate|].
    destruct (length values =? length (df_index imputed)); [|discriminate].
    destruct (IH _ Hrun) as [Hidx Hlab].
    split; [exact Hidx|]. now rewrite Hlab, setitem_values_labels.
Qed.

(** Property X14.
    When [ImputeColumnWise.fit_transform] returns, the frame that it
    returns has the index and the column labels of the frame it was given
    and no missing entry, whatever the column imputer proposes. *)
Theorem fit_transform_fills_everything
    (fit_transform_col : list cell -> string -> pyerror + list cell)
    (df R : DataFrame) :
  fit_transform fit_transform_col df = inr R ->
  has_nan R = false
  /\ df_index R = df_index df
  /\ map fst (df_columns R) = map fst (df_columns df).
Proof.
  unfold fit_transform.
  destruct (impute_each fit_transform_col df _ df) as [e|imputed] eqn:Hrun;
    [discriminate|].
  intros H. injection H as <-.
  destruct (impute_each_shape _ _ _ _ _ Hrun) as [Hidx Hlab].
  split; [apply has_nan_fillna_zero|]. split; [exact Hidx|].
  rewrite <- Hlab. unfold fillna_zero. simpl.
  now rewrite map_map.
Qed.

Lemma fit_transform_fills_everything_witness :
  fit_transform first_value_col df_two_columns
  = inr {| df_index := [0; 1]%Z;
           df_columns := [("var1", [Some 0; Some 0]);
                          ("var2", [Some 4; Some 4])]%Q |}
  /\ has_nan {| df_index := [0; 1]%Z;
                df_columns := [("var1", [Some 0; Some 0]);
                               ("var2", [Some 4; Some 4])]%Q |} = false.
Proof.
  split; [reflexivity|].
  exact (proj1 (fit_transform_fills_everything first_value_col df_two_columns
                  _ eq_refl)).
Defined.

Lemma find_unique_label (cols : list (string * list cell)) (k : nat)
    (name : string) (values : list cell) :
  NoDup (map fst cols) ->
  cols !! k = Some (name, values) ->
  List.find (fun c => String.eqb c.1 name) cols = Some (name, values).
Proof.
  revert k. induction cols as [|c cs IH]; intros k Hnd Hk; [discriminate Hk|].
  simpl in Hnd. apply NoDup_cons in Hnd as [Hnotin Hnd].
  destruct k as [|k]; simpl in *.
  - injection Hk as ->. simpl. now rewrite String.eqb_refl.
  - destruct (String.eqb c.1 name) eqn:Heq.
    + apply String.eqb_eq in Heq. exfalso. apply Hnotin.
      rewrite Heq. apply list_elem_of_fmap. exists (name, values).
      split; [reflexivity|]. now apply list_elem_of_lookup_2 with k.
    + now apply (IH k).
Qed.

Lemma setitem_values_lookup (imputed : DataFrame) (col : string)
    (values : list cell) (k : nat) (name : string) (vs : list cell) :
  df_columns imputed !! k = Some (name, vs) ->
  df_columns (setitem_values imputed col values) !! k
  = Some (name, if String.eqb name col then values else vs).
Proof.
  intros Hk. unfold setitem_values. simpl.
  rewrite UtilsFacts.lookup_map, Hk. simpl.
  now destruct (String.eqb name col).
Qed.

Lemma impute_each_column
    (fit_transform_col : list cell -> string -> pyerror + list cell)
    (df : DataFrame) (cols : list string) (imputed R : DataFrame)
    (k : nat) (name : string) (vs : list cell) :
  NoDup cols ->
  impute_each fit_transform_col df cols imputed = inr R ->
  df_columns imputed !! k = Some (name, vs) ->
  (name ∈ cols ->
   exists signal values,
     getitem_col df name = Some signal
     /\ fit_transform_col signal name = inr values
     /\ length values = length (df_index imputed)
     /\ df_columns R !! k = Some (name, values))
  /\ (name ∉ cols -> df_columns R !! k = Some (name, vs)).
Proof.
  revert imputed vs. induction cols as [|col cols IH];
    intros imputed vs Hnd Hrun Hk; simpl in Hrun.
  - injection Hrun as <-. split; [intros Hin; inversion Hin|auto].
  - apply NoDup_cons in Hnd as [Hnotin Hnd].
    destruct (getitem_col df col) as [signal|] eqn:Hget; [|discriminate].
    destruct (fit_transform_col signal col) as [e|values] eqn:Hfit;
      [discriminate|].
    destruct (Nat.eqb_spec (length values) (length (df_index imputed)))
      as [Hlen|]; [|discriminate].
    pose proof (setitem_values_lookup imputed col values k name vs Hk) as Hk'.
    destruct (IH _ _ Hnd Hrun Hk') as [Hin Hout].
    destruct (String.eqb_spec name col) as [->|Hne].
    + split; [|intros Hn; exfalso; apply Hn; left].
      intros _. exists signal, values. auto.
    + split.
      * intros Hmem. apply elem_of_cons in Hmem as [?|Hmem]; [congruence|].
        exact (Hin Hmem).
      * intros Hn. apply Hout. intros Hmem. apply Hn. now right.
Qed.

(** The column that the loop leaves at the place of a column of the
    frame. *)
Lemma impute_each_own_column
    (fit_transform_col : list cell -> string -> pyerror + list cell)
    (df imputed : DataFrame) (k : nat) (name : string) (signal : list cell) :
  NoDup (map fst (df_columns df)) ->
  impute_each fit_transform_col df (map fst (df_columns df)) df = inr imputed ->
  df_columns df !! k = Some (name, signal) ->
  exists values,
    fit_transform_col signal name = inr values
    /\ length values = length (df_index df)
    /\ df_columns imputed !! k = Some (name, values).
Proof.
  intros Hnd Hloop Hk.
  destruct (impute_each_column _ _ _ _ _ k name signal Hnd Hloop Hk)
    as [Hin _].
  destruct Hin as (signal' & values & Hget & Hfit & Hlen & HR).
  { apply list_elem_of_fmap. exists (name, signal).
    split; [reflexivity|]. now apply list_elem_of_lookup_2 with k. }
  unfold getitem_col in Hget.
  rewrite (find_unique_label _ k name signal Hnd Hk) in Hget.
  injection Hget as <-.
  exists values. auto.
Qed.

(** Property X15.
    On a frame whose column labels are distinct, when
    [ImputeColumnWise.fit_transform] returns, every column of the result
    is what the column imputer proposed for this column, an array as long
    as the index, with zero in place of the entries that it left missing;
    the values observed in the frame are not carried over by
    [fit_transform] itself. *)
Theorem fit_transform_column_values
    (fit_transform_col : list cell -> string -> pyerror + list cell)
    (df R : DataFrame) (k : nat) (name : string) (signal : list cell) :
  NoDup (map fst (df_columns df)) ->
  fit_transform fit_transform_col df = inr R ->
  df_columns df !! k = Some (name, signal) ->
  exists values,
    fit_transform_col signal name = inr values
    /\ length values = length (df_index df)
    /\ df_columns R !! k
       = Some (name, map (fun x : cell => Some (default 0%Q x)) values).
Proof.
  intros Hnd Hrun Hk. unfold fit_transform in Hrun.
  destruct (impute_each fit_transform_col df _ df) as [e|imputed] eqn:Hloop;
    [discriminate|].
  injection Hrun as <-.
  destruct (impute_each_own_column _ _ _ k name signal Hnd Hloop Hk)
    as (values & Hfit & Hlen & Himp).
  exists values. split; [exact Hfit|]. split; [exact Hlen|].
  unfold fillna_zero. simpl. now rewrite UtilsFacts.lookup_map, Himp.
Qed.

Lemma fit_transform_column_values_witness :
  NoDup (map fst (df_columns df_two_columns))
  /\ df_columns df_two_columns !! 0 = Some ("var1", [None; Some 2]%Q)
  /\ exists values,
       first_value_col [None; Some 2]%Q "var1" = inr values
       /\ length values = 2
       /\ df_columns
            {| df_index := [0; 1]%Z;
               df_columns := [("var1", [Some 0; Some 0]);
                              ("var2", [Some 4; Some 4])]%Q |} !! 0
          = Some ("var1", map (fun x : cell => Some (default 0%Q x)) values).
Proof.
  assert (Hnd : NoDup (map fst (df_columns df_two_columns))).
  { simpl. repeat constructor; intros H.
    - apply elem_of_cons in H as [H|H]; [discriminate H|inversion H].
    - inversion H. }
  split; [exact Hnd|]. split; [reflexivity|].
  exact (fit_transform_column_values first_value_col df_two_columns
           _ 0 "var1" [None; Some 2]%Q Hnd eq_refl eq_refl).
Defined.

(** *** [RandomImpute] *)






End ColumnWiseFacts.

(** ** Building and masking the subsets of [EvaluateImputor] *)

Module EvaluateInitFacts.
Import Evaluate.

(** *** [signal.loc[signal > 0].index] *)

Lemma positive_indices_from (s : series) (i : nat) :
  i ∈ positive_indices s
  <-> exists v : Q, s !! i = Some (Some v) /\ (0 < v)%Q.
Proof.
  unfold positive_indices. rewrite list_elem_of_omap.
  split.
  - intros ([j c] & Hin & Hsel).
    apply list_elem_of_lookup in Hin as [k Hk].
    rewrite list_lookup_imap in Hk.
    destruct (s !! k) as [c'|] eqn:Hsk; [|discriminate Hk].
    simpl in Hk. injection Hk as <- <-.
    simpl in Hsel. destruct c' as [v|]; [|discriminate Hsel].
    destruct (Qlt_le_dec 0 v) as [Hpos|]; [|discriminate Hsel].
    injection Hsel as <-. eauto.
  - intros (v & Hv & Hpos). exists (i, Some v). split.
    + apply list_elem_of_lookup. exists i.
      rewrite list_lookup_imap, Hv. reflexivity.
    + simpl. destruct (Qlt_le_dec 0 v) as [|Hle]; [reflexivity|].
      exfalso. exact (Qlt_not_le _ _ Hpos Hle).
Qed.

Lemma draw_subsets_in {RandomState : Type}
    (resample : list nat -> nat -> RandomState -> list nat * RandomState)
    (indices : list nat) (n_samples cv : nat) (random_state : RandomState)
    (subset : list nat) :
  (forall idx n rs, Forall (fun i => i ∈ idx) (resample idx n rs).1) ->
  subset ∈ draw_subsets RandomState resample indices n_samples cv random_state ->
  Forall (fun i => i ∈ indices) subset.
Proof.
  intros Hres. revert random_state.
  induction cv as [|cv IH]; intros rs Hin; simpl in Hin.
  - inversion Hin.
  - pose proof (Hres indices n_samples rs) as Hdraw.
    destruct (resample indices n_samples rs) as [drawn rs'].
    apply elem_of_cons in Hin as [->|Hin]; [exact Hdraw|].
    now apply (IH rs').
Qed.

(** Property X17.
    When [resample] only returns elements of the list that it draws from,
    every index of every subset built by [EvaluateImputor.__init__] is the
    index of an observed, strictly positive value of the signal: missing,
    zero and negative values are never masked nor scored. *)
Theorem init_masks_positive_values_only {RandomState : Type}
    (resample : list nat -> nat -> RandomState -> list nat * RandomState)
    (floor_product : nat -> Q -> nat)
    (sig : series) (prop : Q) (cv : nat) (random_state : RandomState)
    (subset : list nat) (i : nat) :
  (forall idx n rs, Forall (fun i => i ∈ idx) (resample idx n rs).1) ->
  subset ∈ nan_subsets (init RandomState resample floor_product sig prop cv
                          random_state) ->
  i ∈ subset ->
  exists v : Q, sig !! i = Some (Some v) /\ (0 < v)%Q.
Proof.
  intros Hres Hsub Hi. unfold init in Hsub. simpl in Hsub.
  pose proof (draw_subsets_in resample _ _ _ _ _ Hres Hsub) as Hall.
  rewrite Forall_forall in Hall.
  apply positive_indices_from. now apply Hall.
Qed.

Lemma resample_window_draws_from (idx : list nat) (n counter : nat) :
  Forall (fun i => i ∈ idx) (resample_window idx n counter).1.
Proof.
  unfold resample_window. simpl. apply Forall_forall. intros i Hi.
  apply list_elem_of_lookup in Hi as [k Hk].
  apply lookup_take_Some in Hk as [Hk _].
  rewrite lookup_drop in Hk. now apply list_elem_of_lookup_2 with (counter + k).
Qed.

Lemma init_masks_positive_values_only_witness :
  [2; 3; 5] ∈ nan_subsets (init nat resample_window floor_product_exact
                             signal_example (1 # 2) 3 0)
  /\ 3 ∈ [2; 3; 5]
  /\ exists v : Q, signal_example !! 3 = Some (Some v) /\ (0 < v)%Q.
Proof.
  assert (Hsub : [2; 3; 5] ∈ nan_subsets
                   (init nat resample_window floor_product_exact
                      signal_example (1 # 2) 3 0)).
  { right. left. }
  assert (Hi : 3 ∈ [2; 3; 5]) by (right; left).
  split; [exact Hsub|]. split; [exact Hi|].
  exact (init_masks_positive_values_only resample_window floor_product_exact
           signal_example (1 # 2) 3 0 [2; 3; 5] 3
           resample_window_draws_from Hsub Hi).
Defined.

(** *** [transform_signal.loc[nan_indices] = np.nan] *)

Lemma loc_set_nan_length (s : series) (indices : list nat) :
  length (loc_set_nan s indices) = length s.
Proof.
  unfold loc_set_nan. revert s.
  induction indices as [|i indices IH]; intros s; simpl; [reflexivity|].
  now rewrite IH, length_insert.
Qed.

Lemma loc_set_nan_lookup (s : series) (indices : list nat) (i : nat) :
  i < length s ->
  loc_set_nan s indices !! i
  = if bool_decide (i ∈ indices) then Some None else s !! i.
Proof.
  unfold loc_set_nan. revert s.
  induction indices as [|j indices IH]; intros s Hi; cbn [foldl].
  - rewrite bool_decide_eq_false_2; [reflexivity|]. intros H; inversion H.
  - rewrite IH by (now rewrite length_insert).
    destruct (decide (i = j)) as [->|Hne].
    + rewrite (bool_decide_eq_true_2 (j ∈ j :: indices)) by left.
      case_bool_decide; [reflexivity|].
      now rewrite list_lookup_insert_eq.
    + rewrite list_lookup_insert_ne by congruence.
      case_bool_decide as Hin.
      * rewrite bool_decide_eq_true_2; [reflexivity|now right].
      * rewrite bool_decide_eq_false_2; [reflexivity|].
        intros H. apply elem_of_cons in H as [?|?]; [congruence|contradiction].
Qed.

(** Property X19.
    [scores_imputor] runs the imputer on one array: the signal with
    not-a-number at the indices of the first subset and its own values
    everywhere else. *)
Theorem scores_imputor_masks_first_subset (sig : series)
    (first : list nat) (rest : list (list nat))
    (imputor : series -> series) (func : series -> series -> scores) :
  exists masked : series,
    (scores_imputor {| signal := sig; nan_subsets := first :: rest |}
       imputor func).2 = [masked]
    /\ length masked = length sig
    /\ (forall i, i < length sig ->
          masked !! i
          = if bool_decide (i ∈ first) then Some None else sig !! i).
Proof.
  exists (loc_set_nan sig first).
  split; [reflexivity|]. split; [apply loc_set_nan_length|].
  intros i Hi. now apply loc_set_nan_lookup.
Qed.

End EvaluateInitFacts.

(** ** The objective of the search *)

Module ObjectiveFacts.
Import Hyperparameters Objective.

Section ObjectiveFacts.
Context {E : Env}.

Lemma splits_loop_last (attributes : gmap string HyperValue) (df : DataFrame)
    (masks : list Mask) (last_mask : Mask)
    (list_errors : list Errors) (errors : option Errors) :
  Forall (fun m => exists e, split_errors attributes df m = inr e) masks ->
  splits_loop attributes df (masks ++ [last_mask]) list_errors errors
  = match split_errors attributes df last_mask with
    | inl e => inl e
    | inr e =>
        match splits_loop attributes df masks list_errors errors with
        | inl e' => inl e'
        | inr (list_errors', _) => inr (list_errors' ++ [e], Some e)
        end
    end.
Proof.
  intros Hok. revert list_errors errors.
  induction Hok as [|m masks [e He] _ IH]; intros list_errors errors; simpl.
  - destruct (split_errors attributes df last_mask); reflexivity.
  - rewrite He. apply IH.
Qed.

Lemma splits_loop_succeeds (attributes : gmap string HyperValue)
    (df : DataFrame) (masks : list Mask)
    (list_errors : list Errors) (errors : option Errors) :
  Forall (fun m => exists e, split_errors attributes df m = inr e) masks ->
  exists r, splits_loop attributes df masks list_errors errors = inr r.
Proof.
  intros Hok. revert list_errors errors.
  induction Hok as [|m masks [e He] _ IH]; intros list_errors errors; simpl.
  - eauto.
  - rewrite He. apply IH.
Qed.

End ObjectiveFacts.

(** Property X20.
    The value of the objective comes from the last split only. When the
    generator yields no mask, [fun_obf] raises [UnboundLocalError] for the
    variable [errors]. When it yields masks and the iterations before the
    last do not raise, [fun_obf] returns the mean of the errors of the
    last mask (or raises what the last iteration raises): the errors of
    the other masks, collected in [list_errors], do not count. *)
Theorem fun_obf_scores_last_split {E : Env}
    (attributes : gmap string HyperValue) (df : DataFrame)
    (names_hyperparams : list string) (args : list HyperValue) :
  (generator_split df = [] ->
   (fun_obf attributes df names_hyperparams args).2
   = inl (UnboundLocalError "errors"))
  /\ (forall masks last_mask,
        generator_split df = masks ++ [last_mask] ->
        Forall (fun m =>
                  exists e,
                    split_errors (setattrs attributes names_hyperparams args)
                                 df m = inr e) masks ->
        (fun_obf attributes df names_hyperparams args).2
        = match split_errors (setattrs attributes names_hyperparams args)
                  df last_mask with
          | inl e => inl e
          | inr errors => inr (np_mean errors)
          end).
Proof.
  unfold fun_obf. simpl. split.
  - intros ->. reflexivity.
  - intros masks last_mask -> Hok.
    rewrite (splits_loop_last _ _ _ _ _ _ Hok).
    destruct (split_errors _ df last_mask) as [e|e]; [reflexivity|].
    destruct (splits_loop_succeeds _ df masks [] None Hok) as [[l o] ->].
    reflexivity.
Qed.

(** Two masks, of one and of two rows: the objective is 2, the error of
    the second mask, not the mean 3/2 of the two errors. *)
Example fun_obf_example :
  (fun_obf (E := env_example) ∅ Models.df_example ["n_neighbors"] [3%Z]).2
  = inr 2%Q.
Proof. reflexivity. Qed.

End ObjectiveFacts.
